(** * Task service (FastAPI + SQLAlchemy, [main.py]): model and properties

    The service keeps one table of task rows and exposes create, list,
    stats, get, update and delete handlers.  The handlers are embedded as
    programs of a small monad that threads the table, reads the clock and
    may raise; every handler below follows [main.py] statement by
    statement.

    Dates are day numbers and timestamps are instants, both in [Z]. *)

From Stdlib Require Import ZArith List String Bool Lia Arith.
Import ListNotations.
Local Open Scope string_scope.

(** ** Data model *)

(** [class UserDB(Base)]: a row of table "users".  [priority], [status],
    [title] and [due_date] are [nullable=False]. *)
Module UserDB.
Record t : Type := mk {
  id : Z;
  title : string;
  description : option string;
  priority : string;
  status : string;
  due_date : Z;
  completed_at : option Z
}.
End UserDB.

(** [class CreateTask(BaseModel)]: the validated request body.
    [Optional[str]] fields may hold [None]. *)
Module CreateTask.
Record t : Type := mk {
  title : string;
  description : option string;
  priority : option string;
  status : option string;
  due_date : Z;
  completed_at : option Z
}.

(** [updated_task.completed_at = v] *)
Definition set_completed_at (task : t) (v : option Z) : t :=
  mk (title task) (description task) (priority task) (status task)
     (due_date task) v.

(** A member of the JSON object of a request body. *)
Inductive member (A : Type) : Type :=
| Omitted : member A
| Null : member A
| Given : A -> member A.
Arguments Omitted {A}.
Arguments Null {A}.
Arguments Given {A} _.

(** The JSON body before validation. *)
Record body : Type := mk_body {
  b_title : member string;
  b_description : member string;
  b_priority : member string;
  b_status : member string;
  b_due_date : member Z;
  b_completed_at : member Z
}.

(** A field declared [name: T] (no default): required, not nullable. *)
Definition required {A : Type} (m : member A) : option A :=
  match m with
  | Given a => Some a
  | Omitted | Null => None
  end.

(** A field declared [name: Optional[T] = default]. *)
Definition optional {A : Type} (default : option A) (m : member A) : option A :=
  match m with
  | Omitted => default
  | Null => None
  | Given a => Some a
  end.

(** Validation of a body against the field declarations of the class;
    [None] is the 422 answer of the framework. *)
Definition model_validate (b : body) : option t :=
  match required (b_title b), required (b_due_date b) with
  | Some ti, Some dd =>
      Some (mk ti
               (optional None (b_description b))
               (optional (Some "high") (b_priority b))
               (optional (Some "pending") (b_status b))
               dd
               (optional None (b_completed_at b)))
  | _, _ => None
  end.
End CreateTask.

(** What a handler can raise. *)
Inductive Failure : Type :=
| HTTPException (status_code : Z) (detail : string)
| RequestValidationError
| IntegrityError.

(** [date.today()] and [datetime.now()] as seen by one request. *)
Record Clock : Type := mkClock { today : Z; now : Z }.

(** ** The handler monad: clock reader, table state, exceptions *)

Inductive Outcome (A : Type) : Type :=
| Return : A -> Outcome A
| Raise : Failure -> Outcome A.
Arguments Return {A} _.
Arguments Raise {A} _.

Definition Table : Type := list UserDB.t.

Definition M (A : Type) : Type := Clock -> Table -> Outcome A * Table.

Definition ret {A : Type} (a : A) : M A := fun _ db => (Return a, db).

Definition bind {A B : Type} (m : M A) (k : A -> M B) : M B :=
  fun clk db =>
    match m clk db with
    | (Return a, db') => k a clk db'
    | (Raise e, db') => (Raise e, db')
    end.

Definition raise {A : Type} (e : Failure) : M A := fun _ db => (Raise e, db).

Declare Scope handler_scope.
Delimit Scope handler_scope with handler.
Notation "x <- m ;; k" := (bind m (fun x => k))
  (at level 61, m at next level, right associativity) : handler_scope.
Notation "m ;; k" := (bind m (fun _ => k))
  (at level 61, right associativity) : handler_scope.
Local Open Scope handler_scope.

(** [if c: raise e] *)
Definition raise_if (c : bool) (e : Failure) : M unit :=
  if c then raise e else ret tt.

Definition date_today : M Z := fun clk db => (Return (today clk), db).
Definition datetime_now : M Z := fun clk db => (Return (now clk), db).

(** *** Queries *)

(** A query is its WHERE clause; [query.filter(c1, c2)] conjoins. *)
Definition Query : Type := UserDB.t -> bool.

Definition query_all : Query := fun _ => true.

Definition filter_ (q : Query) (c : UserDB.t -> bool) : Query :=
  fun r => q r && c r.

(** [query.count()] *)
Definition count (q : Query) : M nat :=
  fun _ db => (Return (List.length (filter q db)), db).

(** [query.first()] *)
Definition first (q : Query) : M (option UserDB.t) :=
  fun _ db => (Return (find q db), db).

(** [query.offset(o).limit(l).all()] *)
Definition offset_limit_all (q : Query) (o l : Z) : M (list UserDB.t) :=
  fun _ db =>
    (Return (firstn (Z.to_nat l) (skipn (Z.to_nat o) (filter q db))), db).

(** *** Column predicates *)

Definition priority_is (p : string) : UserDB.t -> bool :=
  fun r => String.eqb (UserDB.priority r) p.

Definition status_is (s : string) : UserDB.t -> bool :=
  fun r => String.eqb (UserDB.status r) s.

Definition status_is_not (s : string) : UserDB.t -> bool :=
  fun r => negb (String.eqb (UserDB.status r) s).

Definition due_before (d : Z) : UserDB.t -> bool :=
  fun r => (UserDB.due_date r <? d)%Z.

Definition id_is (i : Z) : UserDB.t -> bool :=
  fun r => (UserDB.id r =? i)%Z.

(** [.filter(UserDB.priority == "high", UserDB.status == "pending")] *)
Definition high_pending : Query :=
  filter_ (filter_ query_all (priority_is "high")) (status_is "pending").

(** [.filter(UserDB.due_date < date.today(), UserDB.status != "completed")] *)
Definition overdue_on (d : Z) : Query :=
  filter_ (filter_ query_all (due_before d)) (status_is_not "completed").

(** *** Writes *)

(** The integer primary key the store gives a new row: one more than the
    largest key in the table, 1 for an empty table. *)
Definition next_id (db : Table) : Z :=
  (fold_right Z.max 0 (map UserDB.id db) + 1)%Z.

(** The row built from the dumped fields of [task], flushed with key [i];
    a [None] in a
    [nullable=False] column is refused by the store. *)
Definition to_row (i : Z) (task : CreateTask.t) : option UserDB.t :=
  match CreateTask.priority task, CreateTask.status task with
  | Some p, Some s =>
      Some (UserDB.mk i (CreateTask.title task) (CreateTask.description task)
                      p s (CreateTask.due_date task)
                      (CreateTask.completed_at task))
  | _, _ => None
  end.

(** [db.add(input_task); db.commit(); db.refresh(input_task)] *)
Definition add_commit (task : CreateTask.t) : M UserDB.t :=
  fun _ db =>
    match to_row (next_id db) task with
    | Some r => (Return r, (db ++ [r])%list)
    | None => (Raise IntegrityError, db)
    end.

(** The six attribute assignments on the loaded row [task], then
    [db.commit(); db.refresh(task)]: an UPDATE keyed by the row's id. *)
Definition assign_commit (task : UserDB.t) (updated_task : CreateTask.t)
  : M UserDB.t :=
  fun _ db =>
    match to_row (UserDB.id task) updated_task with
    | Some r =>
        (Return r,
         map (fun x => if id_is (UserDB.id task) x then r else x) db)
    | None => (Raise IntegrityError, db)
    end.

(** [db.delete(task); db.commit()] *)
Definition delete_commit (task : UserDB.t) : M unit :=
  fun _ db =>
    (Return tt, filter (fun x => negb (id_is (UserDB.id task) x)) db).

(** *** Python helpers *)

(** [x in [s1, s2, ...]] for an [Optional[str]] *)
Definition is_in (x : option string) (l : list string) : bool :=
  match x with
  | Some s => existsb (String.eqb s) l
  | None => false
  end.

(** [x == s] for an [Optional[str]] *)
Definition eq_str (x : option string) (s : string) : bool :=
  match x with
  | Some y => String.eqb y s
  | None => false
  end.

(** Truth value of an [Optional[str]]: [None] and the empty string are false. *)
Definition truthy_str (x : option string) : bool :=
  match x with
  | Some s => negb (String.eqb s EmptyString)
  | None => false
  end.

(** Truth value of an [Optional[bool]]. *)
Definition truthy_bool (x : option bool) : bool :=
  match x with
  | Some b => b
  | None => false
  end.

(** [n or 0] *)
Definition or_0 (n : nat) : nat := if Nat.eqb n 0 then 0 else n.

(** [Query(default, ge=..., le=...)]: an integer query parameter with its
    default and bounds; a value out of bounds is refused (422). *)
Definition QueryParam (default : Z) (ge : option Z) (le : option Z)
  (given : option Z) : M Z :=
  let v := match given with Some v => v | None => default end in
  let ok_ge := match ge with Some b => (b <=? v)%Z | None => true end in
  let ok_le := match le with Some b => (v <=? b)%Z | None => true end in
  if ok_ge && ok_le then ret v else raise RequestValidationError.

(** ** Handlers *)

Definition statuses : list string := ["pending"; "in_progress"; "completed"].
Definition priorities : list string := ["low"; "medium"; "high"].

(** [POST /tasks] *)
Definition create_task (task : CreateTask.t) : M UserDB.t :=
  high_priority_count <- count high_pending ;;
  due_date <- ret (CreateTask.due_date task) ;;
  today <- date_today ;;
  raise_if (due_date <=? today)%Z
    (HTTPException 400 "Possible nahi hein") ;;
  raise_if (negb (is_in (CreateTask.priority task) priorities))
    (HTTPException 400 "Invalid priority value") ;;
  (if eq_str (CreateTask.priority task) "high"
   then raise_if (5 <=? high_priority_count)%nat
          (HTTPException 400 "Cannot create more than 5 high priority tasks")
   else ret tt) ;;
  raise_if (negb (is_in (CreateTask.status task) statuses))
    (HTTPException 400 "Invalid status value") ;;
  add_commit task.

(** [GET /tasks] *)
Definition get_tasks (priority status : option string) (overdue : option bool)
  (page limit : option Z) : M (list UserDB.t) :=
  page <- QueryParam 1 (Some 1%Z) None page ;;
  limit <- QueryParam 10 (Some 1%Z) (Some 100%Z) limit ;;
  query <- ret query_all ;;
  query <- ret (if truthy_str priority
                then filter_ query
                       (fun r => eq_str priority (UserDB.priority r))
                else query) ;;
  query <- ret (if truthy_str status
                then filter_ query
                       (fun r => eq_str status (UserDB.status r))
                else query) ;;
  query <- (if truthy_bool overdue
            then today <- date_today ;;
                 ret (filter_ (filter_ query (due_before today))
                              (status_is_not "completed"))
            else ret query) ;;
  offset <- ret ((page - 1) * limit)%Z ;;
  offset_limit_all query offset limit.

(** The JSON object answered by [GET /tasks/stats]. *)
Record Stats : Type := mkStats {
  total : nat;
  pending : nat;
  in_progress : nat;
  completed : nat;
  overdue : nat;
  high_priority_pending : nat
}.

(** [GET /tasks/stats] *)
Definition get_task_stats : M Stats :=
  total <- count query_all ;;
  pending <- count (filter_ query_all (status_is "pending")) ;;
  in_progress <- count (filter_ query_all (status_is "in_progress")) ;;
  completed <- count (filter_ query_all (status_is "completed")) ;;
  today <- date_today ;;
  overdue <- count (overdue_on today) ;;
  high_priority_pending <- count high_pending ;;
  ret (mkStats (or_0 total) (or_0 pending) (or_0 in_progress)
               (or_0 completed) (or_0 overdue) (or_0 high_priority_pending)).

(** [GET /tasks/{task_id}] *)
Definition get_task (task_id : Z) : M UserDB.t :=
  task <- first (filter_ query_all (id_is task_id)) ;;
  match task with
  | None => raise (HTTPException 404 "Task not found")
  | Some task => ret task
  end.

(** The [if / elif / else] chain of [update_task] over the stored status
    and the requested one; it yields the body to store. *)
Definition transition (current : string) (updated_task : CreateTask.t)
  : M CreateTask.t :=
  let requested := CreateTask.status updated_task in
  if String.eqb current "pending" && eq_str requested "in_progress" then
    ret updated_task
  else if String.eqb current "in_progress" && eq_str requested "completed" then
    now <- datetime_now ;;
    ret (CreateTask.set_completed_at updated_task (Some now))
  else if String.eqb current "completed"
          && is_in requested ["pending"; "in_progress"] then
    raise (HTTPException 400
             "Cannot revert status from completed to pending or in_progress")
  else if negb (is_in requested statuses) then
    raise (HTTPException 400 "Invalid status value")
  else
    raise (HTTPException 400 "Invalid status transition").

(** [PUT /tasks/{task_id}] *)
Definition update_task (task_id : Z) (updated_task : CreateTask.t)
  : M UserDB.t :=
  high_priority_count <- count high_pending ;;
  task <- first (filter_ query_all (id_is task_id)) ;;
  match task with
  | None => raise (HTTPException 404 "Task not found")
  | Some task =>
      today <- date_today ;;
      raise_if (CreateTask.due_date updated_task <=? today)%Z
        (HTTPException 400 "Possible nahi hein") ;;
      raise_if (negb (is_in (CreateTask.priority updated_task) priorities))
        (HTTPException 400 "Invalid priority value") ;;
      (if eq_str (CreateTask.priority updated_task) "high"
       then raise_if (5 <=? high_priority_count)%nat
              (HTTPException 400
                 "Cannot update to high priority task as there are already 5 high priority tasks")
       else ret tt) ;;
      updated_task <- transition (UserDB.status task) updated_task ;;
      assign_commit task updated_task
  end.

(** [DELETE /tasks/{task_id}] *)
Definition delete_task (task_id : Z) : M unit :=
  task <- first (filter_ query_all (id_is task_id)) ;;
  match task with
  | None => raise (HTTPException 404 "Task not found")
  | Some task => delete_commit task
  end.

(** A request body sent to [POST /tasks]: validated, then handled. *)
Definition post_tasks (b : CreateTask.body) : M UserDB.t :=
  match CreateTask.model_validate b with
  | Some task => create_task task
  | None => raise RequestValidationError
  end.

(** A request body sent to [PUT /tasks/{task_id}]. *)
Definition put_tasks (task_id : Z) (b : CreateTask.body) : M UserDB.t :=
  match CreateTask.model_validate b with
  | Some task => update_task task_id task
  | None => raise RequestValidationError
  end.

(** ** Names for the failures of the service *)

Definition invalid_due_date : Failure :=
  HTTPException 400 "Possible nahi hein".
Definition invalid_priority : Failure :=
  HTTPException 400 "Invalid priority value".
Definition quota_exceeded_on_create : Failure :=
  HTTPException 400 "Cannot create more than 5 high priority tasks".
Definition quota_exceeded_on_update : Failure :=
  HTTPException 400
    "Cannot update to high priority task as there are already 5 high priority tasks".
Definition invalid_status : Failure :=
  HTTPException 400 "Invalid status value".
Definition cannot_revert_from_completed : Failure :=
  HTTPException 400
    "Cannot revert status from completed to pending or in_progress".
Definition invalid_status_transition : Failure :=
  HTTPException 400 "Invalid status transition".
Definition not_found : Failure :=
  HTTPException 404 "Task not found".

(** Number of rows with priority high and status pending. *)
Definition high_pending_count (db : Table) : nat :=
  List.length (filter high_pending db).

(** ** The validation order of createTask, as the specification words it *)

(** The first check of an ordered list that does not hold. *)
Fixpoint first_failing (checks : list (bool * Failure)) : option Failure :=
  match checks with
  | [] => None
  | (holds, reason) :: rest =>
      if holds then first_failing rest else Some reason
  end.

(** Checks (1) to (4) of createTask, in the order of the specification. *)
Definition createTask_checks (task : CreateTask.t) (clk : Clock) (db : Table)
  : list (bool * Failure) :=
  [ ((today clk <? CreateTask.due_date task)%Z, invalid_due_date);
    (is_in (CreateTask.priority task) priorities, invalid_priority);
    (implb (eq_str (CreateTask.priority task) "high")
           (high_pending_count db <? 5)%nat, quota_exceeded_on_create);
    (is_in (CreateTask.status task) statuses, invalid_status) ].

(** ** The transition table of updateTask, as the specification words it *)

(** The status enumeration of the data model. *)
Inductive Status : Type := Pending | InProgress | Completed.

(** The member of the enumeration a stored or requested text denotes, if
    any. *)
Definition parse_status (s : string) : option Status :=
  if String.eqb s "pending" then Some Pending
  else if String.eqb s "in_progress" then Some InProgress
  else if String.eqb s "completed" then Some Completed
  else None.

Definition parse_requested (s : option string) : option Status :=
  match s with
  | Some s => parse_status s
  | None => None
  end.

(** The effect column of the table. *)
Inductive Effect : Type :=
| Allowed_no_side_effect
| Allowed_sets_completed_at
| Rejected (reason : Failure).

(** The table, keyed by (current, requested); [None] is a text outside
    the enumeration. *)
Definition transition_table (current requested : option Status) : Effect :=
  match requested with
  | None => Rejected invalid_status
  | Some requested =>
      match current, requested with
      | Some Pending, InProgress => Allowed_no_side_effect
      | Some InProgress, Completed => Allowed_sets_completed_at
      | Some Completed, Pending => Rejected cannot_revert_from_completed
      | Some Completed, InProgress => Rejected cannot_revert_from_completed
      | _, _ => Rejected invalid_status_transition
      end
  end.

(** The table after the UPDATE of [assign_commit] stored [r] under key
    [i]. *)
Definition stored_under (i : Z) (r : UserDB.t) (db : Table) : Table :=
  map (fun x => if id_is i x then r else x) db.


(** ** Requests served one after the other *)

(** The routes of the application. *)
Inductive Request : Type :=
| POST_tasks (task : CreateTask.t)
| GET_tasks (priority status : option string) (overdue : option bool)
            (page limit : option Z)
| GET_tasks_stats
| GET_task (task_id : Z)
| PUT_task (task_id : Z) (updated_task : CreateTask.t)
| DELETE_task (task_id : Z).

(** The table after one request is handled at clock reading [clk]. *)
Definition serve (rq : Request) (clk : Clock) (db : Table) : Table :=
  match rq with
  | POST_tasks task => snd (create_task task clk db)
  | GET_tasks priority status overdue page limit =>
      snd (get_tasks priority status overdue page limit clk db)
  | GET_tasks_stats => snd (get_task_stats clk db)
  | GET_task task_id => snd (get_task task_id clk db)
  | PUT_task task_id updated_task => snd (update_task task_id updated_task clk db)
  | DELETE_task task_id => snd (delete_task task_id clk db)
  end.

(** Sequential execution: each request runs on the table its predecessor
    left. *)
Fixpoint serve_all (rqs : list (Clock * Request)) (db : Table) : Table :=
  match rqs with
  | [] => db
  | (clk, rq) :: rest => serve_all rest (serve rq clk db)
  end.


(** A handler that leaves the table as it found it, whatever it answers. *)
Definition read_only {A : Type} (m : M A) : Prop :=
  forall clk db, snd (m clk db) = db.

(** ** Listing, as the specification words it *)

(** The conjunction of the filters a caller supplied; a filter that was
    not supplied (or whose value is empty or false) does not constrain. *)
Definition supplied_filters_hold (priority status : option string)
  (overdue : option bool) (today : Z) (r : UserDB.t) : bool :=
  (if truthy_str priority then eq_str priority (UserDB.priority r) else true)
  && (if truthy_str status then eq_str status (UserDB.status r) else true)
  && (if truthy_bool overdue
      then (UserDB.due_date r <? today)%Z
           && negb (String.eqb (UserDB.status r) "completed")
      else true).

(** Overdue: due date passed and status not completed. *)
Definition is_overdue (today : Z) (r : UserDB.t) : bool :=
  (UserDB.due_date r <? today)%Z
  && negb (String.eqb (UserDB.status r) "completed").

(** Page [page] of size [limit]: skip [(page - 1) * limit] rows, keep at
    most [limit]. *)
Definition window {A : Type} (page limit : Z) (l : list A) : list A :=
  firstn (Z.to_nat limit) (skipn (Z.to_nat ((page - 1) * limit)) l).

(** The text of a member of the status enumeration. *)
Definition status_text (st : Status) : string :=
  match st with
  | Pending => "pending"
  | InProgress => "in_progress"
  | Completed => "completed"
  end.

(** Every stored status is a member of the enumeration. *)
Definition statuses_in_enum (db : Table) : Prop :=
  Forall (fun r => is_in (Some (UserDB.status r)) statuses = true) db.

(** No row of the table matches the query. *)
Definition no_row_matches (q : Query) (db : Table) : Prop :=
  Forall (fun r => q r = false) db.

(** ** Sample data *)

Module Sample.
Definition clk : Clock := mkClock 5 77.

Definition high_pending_row (i : Z) : UserDB.t :=
  UserDB.mk i "t" None "high" "pending" 10 None.

Definition four : Table :=
  [high_pending_row 1; high_pending_row 2; high_pending_row 3;
   high_pending_row 4].

Definition five : Table :=
  [high_pending_row 1; high_pending_row 2; high_pending_row 3;
   high_pending_row 4; high_pending_row 5].

Definition new_high_pending : CreateTask.t :=
  CreateTask.mk "n" None (Some "high") (Some "pending") 10 None.

Definition keep_high_start : CreateTask.t :=
  CreateTask.mk "n" None (Some "high") (Some "in_progress") 10 None.

Definition started_row : UserDB.t :=
  UserDB.mk 1 "a" None "high" "in_progress" 10 None.

Definition complete_it : CreateTask.t :=
  CreateTask.mk "b" None (Some "high") (Some "completed") 10 (Some 99%Z).

Definition done_row : UserDB.t :=
  UserDB.mk 1 "a" None "low" "completed" 10 None.

Definition bad_priority : CreateTask.t :=
  CreateTask.mk "b" None (Some "urgent") (Some "pending") 10 None.

Definition late_and_bogus : CreateTask.t :=
  CreateTask.mk "a" None (Some "bogus") None 3 None.

Definition pending_row : UserDB.t :=
  UserDB.mk 1 "a" None "low" "pending" 10 None.

(** Start the pending task and send a completion timestamp with it. *)
Definition start_with_timestamp : CreateTask.t :=
  CreateTask.mk "a" None (Some "low") (Some "in_progress") 10 (Some 42%Z).

Definition untitled : CreateTask.t :=
  CreateTask.mk EmptyString None (Some "low") (Some "pending") 10 None.

Definition overdue_row : UserDB.t :=
  UserDB.mk 2 "late" None "low" "pending" 2 None.

Definition mixed : Table := [done_row; overdue_row; high_pending_row 3].

Definition untitled_body : CreateTask.body :=
  CreateTask.mk_body (CreateTask.Given EmptyString) CreateTask.Omitted
    (CreateTask.Given "low") (CreateTask.Given "pending")
    (CreateTask.Given 10%Z) CreateTask.Omitted.

End Sample.


(** [task.title = s] on a request body. *)
Definition with_title (task : CreateTask.t) (s : string) : CreateTask.t :=
  CreateTask.mk s (CreateTask.description task) (CreateTask.priority task)
    (CreateTask.status task) (CreateTask.due_date task)
    (CreateTask.completed_at task).





(** ** Further notions for the properties of the handlers *)

(** No two rows share a primary key. *)
Definition ids_unique (db : Table) : Prop := NoDup (map UserDB.id db).

(** Every stored priority and status is a member of its enumeration. *)
Definition columns_in_enum (db : Table) : Prop :=
  Forall (fun r => is_in (Some (UserDB.priority r)) priorities = true
                   /\ is_in (Some (UserDB.status r)) statuses = true) db.

(** The rows [GET /tasks] answers for page [page] of size [limit]; no
    rows when the request is refused. *)
Definition listing (priority status : option string) (overdue : option bool)
  (page limit : Z) (clk : Clock) (db : Table) : list UserDB.t :=
  match fst (get_tasks priority status overdue (Some page) (Some limit) clk db)
  with
  | Return rows => rows
  | Raise _ => []
  end.

(** The field checks of [update_task], in the order the handler makes
    them once the target row is found. *)
Definition update_task_checks (updated_task : CreateTask.t) (clk : Clock)
  (db : Table) : list (bool * Failure) :=
  [ ((today clk <? CreateTask.due_date updated_task)%Z, invalid_due_date);
    (is_in (CreateTask.priority updated_task) priorities, invalid_priority);
    (implb (eq_str (CreateTask.priority updated_task) "high")
           (high_pending_count db <? 5)%nat, quota_exceeded_on_update) ].

(** More sample data. *)
Module Scenario.
Definition low_row (i : Z) (s : string) : UserDB.t :=
  UserDB.mk i "t" None "low" s 10 None.

Definition three : Table :=
  [low_row 1 "pending"; low_row 2 "in_progress"; low_row 3 "completed"].

Definition new_low : CreateTask.t :=
  CreateTask.mk "n" None (Some "low") (Some "pending") 10 None.

Definition start_low : CreateTask.t :=
  CreateTask.mk "n" None (Some "low") (Some "in_progress") 10 None.

Definition finish_low : CreateTask.t :=
  CreateTask.mk "n" None (Some "low") (Some "completed") 10 None.

Definition null_priority_body : CreateTask.body :=
  CreateTask.mk_body (CreateTask.Given "x") CreateTask.Omitted
    CreateTask.Null (CreateTask.Given "in_progress") (CreateTask.Given 10%Z)
    CreateTask.Omitted.

Definition null_status_body : CreateTask.body :=
  CreateTask.mk_body (CreateTask.Given "x") CreateTask.Omitted
    (CreateTask.Given "low") CreateTask.Null (CreateTask.Given 10%Z)
    CreateTask.Omitted.
End Scenario.


(** ** Counting and filtering, as the specification words them *)

(** The number of rows for which [p] holds, counted row by row. *)
Fixpoint count_where (p : UserDB.t -> bool) (db : Table) : nat :=
  match db with
  | [] => 0
  | r :: rest => (if p r then 1 else 0) + count_where p rest
  end.

(** The task has status [s]. *)
Definition has_status (s : string) (r : UserDB.t) : bool :=
  String.eqb (UserDB.status r) s.

(** The task has priority high and status pending. *)
Definition is_high_priority_pending (r : UserDB.t) : bool :=
  String.eqb (UserDB.priority r) "high"
  && String.eqb (UserDB.status r) "pending".

(** A text filter on a column value: an absent or empty filter lets
    every value through, any other lets through the equal value only. *)
Definition text_filter_holds (wanted : option string) (value : string) : bool :=
  match wanted with
  | None => true
  | Some EmptyString => true
  | Some (String c w) => String.eqb value (String c w)
  end.

(** The overdue filter constrains only when it is given as true. *)
Definition overdue_filter_holds (wanted : option bool) (today : Z)
  (r : UserDB.t) : bool :=
  match wanted with
  | Some true => is_overdue today r
  | Some false => true
  | None => true
  end.

(** All three filters at once. *)
Definition all_filters_hold (priority status : option string)
  (overdue : option bool) (today : Z) (r : UserDB.t) : bool :=
  text_filter_holds priority (UserDB.priority r)
  && text_filter_holds status (UserDB.status r)
  && overdue_filter_holds overdue today r.

(** The same, as a proposition on the columns of the row: the row has
    the wanted priority, and the wanted status, and is overdue when
    that is asked. *)
Definition satisfies_filters (priority status : option string)
  (overdue : option bool) (today : Z) (r : UserDB.t) : Prop :=
  (forall p, priority = Some p -> p <> EmptyString -> UserDB.priority r = p)
  /\ (forall s, status = Some s -> s <> EmptyString -> UserDB.status r = s)
  /\ (overdue = Some true ->
      (UserDB.due_date r < today)%Z /\ UserDB.status r <> "completed").

(** The page a request asks for: 1 when none is given. *)
Definition page_or_default (page : option Z) : Z :=
  match page with
  | Some v => v
  | None => 1%Z
  end.

(** The limit a request asks for: 10 when none is given. *)
Definition limit_or_default (limit : option Z) : Z :=
  match limit with
  | Some v => v
  | None => 10%Z
  end.


(** ** Proof support *)

Ltac unfold_handler :=
  unfold create_task, update_task, delete_task, get_task, get_task_stats,
    transition, add_commit, assign_commit, delete_commit, count, first,
    date_today, datetime_now, raise_if, bind, ret, raise in *.

Lemma is_in_Some (x : option string) (l : list string) :
  is_in x l = true -> exists s, x = Some s /\ In s l.
Proof.
  destruct x as [s|]; simpl; [|discriminate].
  intros H. apply existsb_exists in H. destruct H as [y [Hy He]].
  apply String.eqb_eq in He. subst y. exists s. split; [reflexivity|assumption].
Qed.

Lemma leb_ltb_neg (n m : nat) : (m <=? n)%nat = negb (n <? m)%nat.
Proof.
  destruct (Nat.leb_spec m n), (Nat.ltb_spec n m); simpl; try reflexivity; lia.
Qed.

Lemma Zleb_ltb_neg (a b : Z) : (a <=? b)%Z = negb (b <? a)%Z.
Proof.
  destruct (Z.leb_spec a b), (Z.ltb_spec b a); simpl; try reflexivity; lia.
Qed.

(** ** createTask *)

(** C3. createTask reports the first failing check of the ordered list
    (1) due date strictly after today, (2) priority in the enumeration,
    (3) quota when priority is high, (4) status in the enumeration, and
    stores the task when none fails; a due date not after today gives the
    due-date failure whatever the other fields are. *)
Theorem create_task_first_failing_check (task : CreateTask.t) (clk : Clock)
  (db : Table) :
  match first_failing (createTask_checks task clk db) with
  | Some reason => create_task task clk db = (Raise reason, db)
  | None =>
      exists r, to_row (next_id db) task = Some r
                /\ create_task task clk db = (Return r, (db ++ [r])%list)
  end
  /\ ((CreateTask.due_date task <= today clk)%Z ->
      create_task task clk db = (Raise invalid_due_date, db)).
Proof.
  split.
  - unfold createTask_checks, high_pending_count. unfold_handler.
    rewrite Zleb_ltb_neg, leb_ltb_neg. cbn [first_failing].
    destruct (today clk <? CreateTask.due_date task)%Z; simpl; [|reflexivity].
    destruct (is_in (CreateTask.priority task) priorities) eqn:Hp; simpl;
      [|reflexivity].
    destruct (eq_str (CreateTask.priority task) "high"); simpl.
    + destruct (List.length (filter high_pending db) <? 5)%nat; simpl;
        [|reflexivity].
      destruct (is_in (CreateTask.status task) statuses) eqn:Hs; simpl;
        [|reflexivity].
      apply is_in_Some in Hp. apply is_in_Some in Hs.
      destruct Hp as [p [Hp _]]. destruct Hs as [s [Hs _]].
      unfold to_row. rewrite Hp, Hs. eexists. split; reflexivity.
    + destruct (is_in (CreateTask.status task) statuses) eqn:Hs; simpl;
        [|reflexivity].
      apply is_in_Some in Hp. apply is_in_Some in Hs.
      destruct Hp as [p [Hp _]]. destruct Hs as [s [Hs _]].
      unfold to_row. rewrite Hp, Hs. eexists. split; reflexivity.
  - intros Hd. unfold_handler.
    destruct (Z.leb_spec (CreateTask.due_date task) (today clk)); [reflexivity|lia].
Qed.

Lemma create_task_first_failing_check_witness :
  create_task Sample.late_and_bogus (mkClock 3 0) []
  = (Raise invalid_due_date, []).
Proof.
  apply (proj2 (create_task_first_failing_check Sample.late_and_bogus
                  (mkClock 3 0) [])).
  simpl. lia.
Defined.

(** ** updateTask *)

Ltac status_cases s :=
  destruct (String.eqb_spec s "pending");
  [subst s
  |destruct (String.eqb_spec s "in_progress");
   [subst s
   |destruct (String.eqb_spec s "completed"); [subst s|]]].

Lemma get_task_first (task_id : Z) (clk : Clock) (db : Table) (t : UserDB.t) :
  get_task task_id clk db = (Return t, db) ->
  find (filter_ query_all (id_is task_id)) db = Some t.
Proof.
  unfold_handler.
  destruct (find (filter_ query_all (id_is task_id)) db); intros H;
    inversion H; reflexivity.
Qed.

Lemma find_id (task_id : Z) (db : Table) (t : UserDB.t) :
  find (filter_ query_all (id_is task_id)) db = Some t ->
  UserDB.id t = task_id /\ In t db.
Proof.
  intros H. apply find_some in H. destruct H as [Hin Hq].
  unfold filter_, query_all, id_is in Hq. simpl in Hq.
  apply Z.eqb_eq in Hq. split; assumption.
Qed.

Lemma update_task_unfold (task_id : Z) (inp : CreateTask.t) (clk : Clock)
  (db : Table) :
  update_task task_id inp clk db =
  match find (filter_ query_all (id_is task_id)) db with
  | None => (Raise not_found, db)
  | Some t =>
      if (CreateTask.due_date inp <=? today clk)%Z
      then (Raise invalid_due_date, db)
      else if negb (is_in (CreateTask.priority inp) priorities)
      then (Raise invalid_priority, db)
      else if eq_str (CreateTask.priority inp) "high"
              && (5 <=? high_pending_count db)%nat
      then (Raise quota_exceeded_on_update, db)
      else match transition (UserDB.status t) inp clk db with
           | (Return u, db') => assign_commit t u clk db'
           | (Raise e, db') => (Raise e, db')
           end
  end.
Proof.
  unfold update_task, high_pending_count, bind, count, first, date_today,
    raise_if, ret, raise.
  destruct (find (filter_ query_all (id_is task_id)) db); [|reflexivity].
  destruct (CreateTask.due_date inp <=? today clk)%Z; [reflexivity|].
  destruct (negb (is_in (CreateTask.priority inp) priorities)); [reflexivity|].
  destruct (eq_str (CreateTask.priority inp) "high"); [|reflexivity].
  destruct (5 <=? List.length (filter high_pending db))%nat; reflexivity.
Qed.

Lemma transition_by_table (current : string) (inp : CreateTask.t) (clk : Clock)
  (db : Table) :
  transition current inp clk db =
  match transition_table (parse_status current)
                         (parse_requested (CreateTask.status inp)) with
  | Allowed_no_side_effect => (Return inp, db)
  | Allowed_sets_completed_at =>
      (Return (CreateTask.set_completed_at inp (Some (now clk))), db)
  | Rejected reason => (Raise reason, db)
  end.
Proof.
  unfold transition, bind, ret, raise, datetime_now, parse_requested,
    parse_status.
  destruct (CreateTask.status inp) as [rq|]; simpl.
  - status_cases current; status_cases rq; simpl; try reflexivity.
    all: repeat match goal with
         | H : ?a <> ?b |- _ =>
             rewrite (proj2 (String.eqb_neq a b) H); clear H
         end; reflexivity.
  - status_cases current; reflexivity.
Qed.

(** C1. On an existing task whose update passes the field checks (due
    date, priority, quota), the outcome of updateTask is the one the
    transition table gives for (stored status, requested status):
    pending to in_progress stores the input as it is, in_progress to
    completed stores it with completed_at set to the current timestamp
    whatever the caller supplied, and every other pair is rejected with
    the reason of the table.  A request to leave completed for pending or
    in_progress fails whatever the other fields are. *)
Theorem update_task_transition_table (task_id : Z) (inp : CreateTask.t)
  (clk : Clock) (db : Table) (t : UserDB.t)
  (Hexists : get_task task_id clk db = (Return t, db)) :
  ((today clk < CreateTask.due_date inp)%Z ->
   is_in (CreateTask.priority inp) priorities = true ->
   (CreateTask.priority inp = Some "high" -> high_pending_count db < 5) ->
   match transition_table (parse_status (UserDB.status t))
                          (parse_requested (CreateTask.status inp)) with
   | Allowed_no_side_effect =>
       exists r, to_row task_id inp = Some r
         /\ UserDB.completed_at r = CreateTask.completed_at inp
         /\ update_task task_id inp clk db = (Return r, stored_under task_id r db)
   | Allowed_sets_completed_at =>
       exists r,
         to_row task_id (CreateTask.set_completed_at inp (Some (now clk))) = Some r
         /\ UserDB.completed_at r = Some (now clk)
         /\ update_task task_id inp clk db = (Return r, stored_under task_id r db)
   | Rejected reason => update_task task_id inp clk db = (Raise reason, db)
   end)
  /\ (UserDB.status t = "completed" ->
      CreateTask.status inp = Some "pending"
      \/ CreateTask.status inp = Some "in_progress" ->
      exists reason, update_task task_id inp clk db = (Raise reason, db)).
Proof.
  apply get_task_first in Hexists.
  destruct (find_id _ _ _ Hexists) as [Hid _].
  rewrite update_task_unfold, Hexists, transition_by_table.
  split.
  - intros Hdue Hprio Hquota.
    destruct (Z.leb_spec (CreateTask.due_date inp) (today clk)); [lia|].
    rewrite Hprio. cbn [negb].
    assert (Hq : eq_str (CreateTask.priority inp) "high"
                 && (5 <=? high_pending_count db)%nat = false).
    { destruct (eq_str (CreateTask.priority inp) "high") eqn:Hh; [|reflexivity].
      destruct (CreateTask.priority inp) as [p|] eqn:Hp; [|discriminate].
      simpl in Hh. apply String.eqb_eq in Hh. subst p.
      specialize (Hquota eq_refl). cbn [andb].
      apply Nat.leb_gt. assumption. }
    rewrite Hq. clear Hq.
    apply is_in_Some in Hprio. destruct Hprio as [p [Hp _]].
    destruct (transition_table (parse_status (UserDB.status t))
                (parse_requested (CreateTask.status inp))) eqn:Htab;
      [| |reflexivity].
    + destruct (CreateTask.status inp) as [rq|] eqn:Hrq; [|discriminate].
      unfold assign_commit, to_row, stored_under. rewrite Hid, Hp, Hrq.
      eexists. split; [reflexivity|]. split; reflexivity.
    + destruct (CreateTask.status inp) as [rq|] eqn:Hrq; [|discriminate].
      unfold assign_commit, to_row, stored_under. simpl. rewrite Hid, Hp, Hrq.
      eexists. split; [reflexivity|]. split; reflexivity.
  - intros Hst Hreq.
    destruct (CreateTask.due_date inp <=? today clk)%Z; [eexists; reflexivity|].
    destruct (negb (is_in (CreateTask.priority inp) priorities));
      [eexists; reflexivity|].
    destruct (eq_str (CreateTask.priority inp) "high"
              && (5 <=? high_pending_count db)%nat); [eexists; reflexivity|].
    rewrite Hst. destruct Hreq as [Hr|Hr]; rewrite Hr; simpl;
      eexists; reflexivity.
Qed.

Lemma update_task_transition_table_witness :
  exists r, UserDB.completed_at r = Some 77%Z
            /\ update_task 1 Sample.complete_it Sample.clk [Sample.started_row]
               = (Return r, stored_under 1 r [Sample.started_row]).
Proof.
  pose proof (proj1 (update_task_transition_table 1 Sample.complete_it
                       Sample.clk [Sample.started_row] Sample.started_row
                       eq_refl)) as H.
  assert (Hdue : (today Sample.clk < CreateTask.due_date Sample.complete_it)%Z)
    by (simpl; lia).
  assert (Hq : CreateTask.priority Sample.complete_it = Some "high" ->
               high_pending_count [Sample.started_row] < 5)
    by (intros _; vm_compute; lia).
  specialize (H Hdue eq_refl Hq). simpl in H.
  destruct H as [r [_ [H2 H3]]]. exists r. split; assumption.
Defined.

(** ** Rejections write nothing *)

Lemma create_task_unfold (task : CreateTask.t) (clk : Clock) (db : Table) :
  create_task task clk db =
  if (CreateTask.due_date task <=? today clk)%Z
  then (Raise invalid_due_date, db)
  else if negb (is_in (CreateTask.priority task) priorities)
  then (Raise invalid_priority, db)
  else if eq_str (CreateTask.priority task) "high"
          && (5 <=? high_pending_count db)%nat
  then (Raise quota_exceeded_on_create, db)
  else if negb (is_in (CreateTask.status task) statuses)
  then (Raise invalid_status, db)
  else add_commit task clk db.
Proof.
  unfold create_task, high_pending_count, bind, count, date_today, raise_if,
    ret, raise.
  destruct (CreateTask.due_date task <=? today clk)%Z; [reflexivity|].
  destruct (negb (is_in (CreateTask.priority task) priorities)); [reflexivity|].
  destruct (eq_str (CreateTask.priority task) "high"); cbn [andb].
  - destruct (5 <=? List.length (filter high_pending db))%nat; [reflexivity|].
    destruct (negb (is_in (CreateTask.status task) statuses)); reflexivity.
  - destruct (negb (is_in (CreateTask.status task) statuses)); reflexivity.
Qed.

Lemma add_commit_cases (task : CreateTask.t) (clk : Clock) (db : Table) :
  (exists r, to_row (next_id db) task = Some r
             /\ add_commit task clk db = (Return r, (db ++ [r])%list))
  \/ add_commit task clk db = (Raise IntegrityError, db).
Proof.
  unfold add_commit. destruct (to_row (next_id db) task) as [r|].
  - left. exists r. split; reflexivity.
  - right. reflexivity.
Qed.

Lemma assign_commit_cases (t : UserDB.t) (u : CreateTask.t) (clk : Clock)
  (db : Table) :
  (exists r, to_row (UserDB.id t) u = Some r
             /\ assign_commit t u clk db
                = (Return r, stored_under (UserDB.id t) r db))
  \/ assign_commit t u clk db = (Raise IntegrityError, db).
Proof.
  unfold assign_commit, stored_under.
  destruct (to_row (UserDB.id t) u) as [r|].
  - left. exists r. split; reflexivity.
  - right. reflexivity.
Qed.

(** Every way [update_task] can end. *)
Lemma update_task_cases (task_id : Z) (inp : CreateTask.t) (clk : Clock)
  (db : Table) :
  (exists e, update_task task_id inp clk db = (Raise e, db))
  \/ (exists t u r,
        find (filter_ query_all (id_is task_id)) db = Some t
        /\ (transition_table (parse_status (UserDB.status t))
              (parse_requested (CreateTask.status inp)) = Allowed_no_side_effect
            /\ u = inp
            \/ transition_table (parse_status (UserDB.status t))
                 (parse_requested (CreateTask.status inp))
               = Allowed_sets_completed_at
               /\ u = CreateTask.set_completed_at inp (Some (now clk)))
        /\ to_row task_id u = Some r
        /\ update_task task_id inp clk db = (Return r, stored_under task_id r db)).
Proof.
  rewrite update_task_unfold.
  destruct (find (filter_ query_all (id_is task_id)) db) as [t|] eqn:Hf;
    [|left; eexists; reflexivity].
  destruct (find_id _ _ _ Hf) as [Hid _].
  destruct (CreateTask.due_date inp <=? today clk)%Z;
    [left; eexists; reflexivity|].
  destruct (negb (is_in (CreateTask.priority inp) priorities));
    [left; eexists; reflexivity|].
  destruct (eq_str (CreateTask.priority inp) "high"
            && (5 <=? high_pending_count db)%nat);
    [left; eexists; reflexivity|].
  rewrite transition_by_table.
  destruct (transition_table (parse_status (UserDB.status t))
              (parse_requested (CreateTask.status inp))) eqn:Htab;
    [| |left; eexists; reflexivity].
  - destruct (assign_commit_cases t inp clk db) as [[r [Hr Ha]]|Ha];
      rewrite Ha; [|left; eexists; reflexivity].
    right. exists t, inp, r. rewrite <- Hid.
    split; [reflexivity|]. split; [left; split; [exact Htab|reflexivity]|].
    split; [assumption|reflexivity].
  - destruct (assign_commit_cases t
                (CreateTask.set_completed_at inp (Some (now clk))) clk db)
      as [[r [Hr Ha]]|Ha]; rewrite Ha; [|left; eexists; reflexivity].
    right. exists t, (CreateTask.set_completed_at inp (Some (now clk))), r.
    rewrite <- Hid.
    split; [reflexivity|]. split; [right; split; [exact Htab|reflexivity]|].
    split; [assumption|reflexivity].
Qed.

Lemma update_task_raise_unchanged (task_id : Z) (inp : CreateTask.t)
  (clk : Clock) (db db' : Table) (e : Failure) :
  update_task task_id inp clk db = (Raise e, db') -> db' = db.
Proof.
  destruct (update_task_cases task_id inp clk db)
    as [[e' He]|[t [u [r [_ [_ [_ He]]]]]]]; rewrite He;
    intros H; inversion H; reflexivity.
Qed.

(** C8. A createTask or updateTask call that is rejected leaves the
    table as it was: every failure is raised before any write. *)
Theorem rejected_call_writes_nothing (task_id : Z) (task : CreateTask.t)
  (clk : Clock) (db db' : Table) (e : Failure) :
  (create_task task clk db = (Raise e, db') -> db' = db)
  /\ (update_task task_id task clk db = (Raise e, db') -> db' = db).
Proof.
  split.
  - rewrite create_task_unfold.
    destruct (CreateTask.due_date task <=? today clk)%Z;
      [intros H; inversion H; reflexivity|].
    destruct (negb (is_in (CreateTask.priority task) priorities));
      [intros H; inversion H; reflexivity|].
    destruct (eq_str (CreateTask.priority task) "high"
              && (5 <=? high_pending_count db)%nat);
      [intros H; inversion H; reflexivity|].
    destruct (negb (is_in (CreateTask.status task) statuses));
      [intros H; inversion H; reflexivity|].
    destruct (add_commit_cases task clk db) as [[r [_ Ha]]|Ha]; rewrite Ha;
      intros H; inversion H; reflexivity.
  - apply update_task_raise_unchanged.
Qed.

Lemma rejected_call_writes_nothing_witness :
  snd (create_task Sample.bad_priority Sample.clk [Sample.done_row])
  = [Sample.done_row]
  /\ snd (update_task 1 Sample.bad_priority Sample.clk [Sample.done_row])
     = [Sample.done_row].
Proof.
  destruct (rejected_call_writes_nothing 1 Sample.bad_priority Sample.clk
              [Sample.done_row]
              (snd (create_task Sample.bad_priority Sample.clk
                      [Sample.done_row]))
              invalid_priority) as [Hc _].
  destruct (rejected_call_writes_nothing 1 Sample.bad_priority Sample.clk
              [Sample.done_row]
              (snd (update_task 1 Sample.bad_priority Sample.clk
                      [Sample.done_row]))
              invalid_priority) as [_ Hu].
  split; [apply Hc|apply Hu]; reflexivity.
Defined.

(** ** Handlers that only read *)

Lemma read_only_ret {A : Type} (a : A) : read_only (ret a).
Proof. intros clk db. reflexivity. Qed.

Lemma read_only_raise {A : Type} (e : Failure) : read_only (@raise A e).
Proof. intros clk db. reflexivity. Qed.

Lemma read_only_bind {A B : Type} (m : M A) (k : A -> M B) :
  read_only m -> (forall a, read_only (k a)) -> read_only (bind m k).
Proof.
  intros Hm Hk clk db. unfold bind. specialize (Hm clk db).
  destruct (m clk db) as [[a|e] db1]; simpl in Hm; subst db1.
  - apply Hk.
  - reflexivity.
Qed.

Lemma read_only_if {A : Type} (c : bool) (m1 m2 : M A) :
  read_only m1 -> read_only m2 -> read_only (if c then m1 else m2).
Proof. destruct c; intros; assumption. Qed.

Lemma read_only_count (q : Query) : read_only (count q).
Proof. intros clk db. reflexivity. Qed.

Lemma read_only_first (q : Query) : read_only (first q).
Proof. intros clk db. reflexivity. Qed.

Lemma read_only_date_today : read_only date_today.
Proof. intros clk db. reflexivity. Qed.

Lemma read_only_offset_limit_all (q : Query) (o l : Z) :
  read_only (offset_limit_all q o l).
Proof. intros clk db. reflexivity. Qed.

Lemma read_only_QueryParam (default : Z) (ge le given : option Z) :
  read_only (QueryParam default ge le given).
Proof.
  unfold QueryParam. apply read_only_if;
    [apply read_only_ret|apply read_only_raise].
Qed.

Create HintDb readonly.

#[local] Hint Resolve read_only_ret read_only_raise read_only_count
  read_only_first read_only_date_today read_only_offset_limit_all
  read_only_QueryParam : readonly.

Ltac read_only_steps :=
  repeat (first [ apply read_only_bind; [|intros ?]
                | apply read_only_if
                | solve [auto with readonly] ]).

Lemma read_only_get_tasks (priority status : option string)
  (overdue : option bool) (page limit : option Z) :
  read_only (get_tasks priority status overdue page limit).
Proof. unfold get_tasks. read_only_steps. Qed.

Lemma read_only_get_task_stats : read_only get_task_stats.
Proof. unfold get_task_stats. read_only_steps. Qed.

Lemma read_only_get_task (task_id : Z) : read_only (get_task task_id).
Proof.
  unfold get_task. apply read_only_bind; [auto with readonly|].
  intros [t|]; auto with readonly.
Qed.

(** ** The high-priority-pending quota *)

Lemma count_app (q : Query) (db : Table) (r : UserDB.t) :
  List.length (filter q (db ++ [r])%list)
  = List.length (filter q db) + (if q r then 1 else 0).
Proof.
  rewrite filter_app, length_app. simpl. destruct (q r); reflexivity.
Qed.

Lemma count_filter_le (q : Query) (c : UserDB.t -> bool) (db : Table) :
  List.length (filter q (filter c db)) <= List.length (filter q db).
Proof.
  induction db as [|x db IH]; simpl; [lia|].
  destruct (c x); simpl; destruct (q x); simpl; lia.
Qed.

Lemma count_filter_lt (q : Query) (c : UserDB.t -> bool) (db : Table)
  (t : UserDB.t) :
  In t db -> q t = true -> c t = false ->
  List.length (filter q (filter c db)) < List.length (filter q db).
Proof.
  intros Hin Hq Hc. induction db as [|x db IH]; simpl; [contradiction|].
  destruct Hin as [Hx|Hin].
  - subst x. rewrite Hc, Hq. simpl.
    pose proof (count_filter_le q c db). lia.
  - specialize (IH Hin). destruct (c x); simpl; destruct (q x); simpl; lia.
Qed.

Lemma count_stored_under_le (q : Query) (i : Z) (r : UserDB.t) (db : Table) :
  q r = false ->
  List.length (filter q (stored_under i r db)) <= List.length (filter q db).
Proof.
  intros Hr. unfold stored_under.
  induction db as [|x db IH]; simpl; [lia|].
  destruct (id_is i x).
  - rewrite Hr. destruct (q x); simpl; lia.
  - destruct (q x); simpl; lia.
Qed.

(** A row stored by an accepted update is never pending. *)
Lemma updated_row_not_pending (task_id : Z) (inp : CreateTask.t) (clk : Clock)
  (db db' : Table) (r : UserDB.t) :
  update_task task_id inp clk db = (Return r, db') ->
  db' = stored_under task_id r db
  /\ (UserDB.status r = "in_progress" \/ UserDB.status r = "completed").
Proof.
  intros H.
  destruct (update_task_cases task_id inp clk db)
    as [[e He]|[t [u [r' [_ [Hu [Hr He]]]]]]]; rewrite He in H;
    [discriminate|].
  inversion H; subst r' db'. split; [reflexivity|].
  unfold to_row in Hr.
  destruct Hu as [[Htab Hu]|[Htab Hu]]; subst u;
    destruct (CreateTask.status inp) as [rq|] eqn:Hrq;
    simpl in Htab; try discriminate;
    unfold CreateTask.set_completed_at in Hr; simpl in Hr;
    try rewrite Hrq in Hr;
    destruct (CreateTask.priority inp); try discriminate;
    inversion Hr; simpl;
    unfold parse_status in Htab;
    status_cases rq; simpl in Htab;
    try (left; reflexivity); try (right; reflexivity);
    destruct (String.eqb (UserDB.status t) "pending");
    try discriminate;
    destruct (String.eqb (UserDB.status t) "in_progress");
    try discriminate;
    destruct (String.eqb (UserDB.status t) "completed");
    discriminate.
Qed.

Lemma serve_keeps_quota (rq : Request) (clk : Clock) (db : Table) :
  high_pending_count db <= 5 -> high_pending_count (serve rq clk db) <= 5.
Proof.
  intros Hinv. destruct rq as [task|p s o pg lm| |i|i u|i]; cbn [serve].
  - rewrite create_task_unfold.
    destruct (CreateTask.due_date task <=? today clk)%Z; [exact Hinv|].
    destruct (negb (is_in (CreateTask.priority task) priorities));
      [exact Hinv|].
    destruct (eq_str (CreateTask.priority task) "high") eqn:Hh; cbn [andb].
    + destruct (Nat.leb_spec 5 (high_pending_count db)); [exact Hinv|].
      destruct (negb (is_in (CreateTask.status task) statuses)); [exact Hinv|].
      destruct (add_commit_cases task clk db) as [[r [_ Ha]]|Ha]; rewrite Ha;
        simpl; [|exact Hinv].
      unfold high_pending_count in *. rewrite count_app.
      destruct (high_pending r); lia.
    + destruct (negb (is_in (CreateTask.status task) statuses)); [exact Hinv|].
      destruct (add_commit_cases task clk db) as [[r [Hr Ha]]|Ha]; rewrite Ha;
        simpl; [|exact Hinv].
      unfold high_pending_count in *. rewrite count_app.
      assert (Hnot : high_pending r = false).
      { unfold to_row in Hr.
        destruct (CreateTask.priority task) as [p|]; [|discriminate].
        destruct (CreateTask.status task) as [s|]; [|discriminate].
        inversion Hr. unfold high_pending, filter_, query_all, priority_is.
        simpl in *. rewrite Hh. reflexivity. }
      rewrite Hnot. lia.
  - rewrite read_only_get_tasks. exact Hinv.
  - rewrite read_only_get_task_stats. exact Hinv.
  - rewrite read_only_get_task. exact Hinv.
  - destruct (update_task i u clk db) as [[r|e] db'] eqn:Hu; simpl.
    + apply updated_row_not_pending in Hu. destruct Hu as [Hdb Hst]. subst db'.
      unfold high_pending_count in *.
      etransitivity; [apply count_stored_under_le|exact Hinv].
      unfold high_pending, filter_, query_all, priority_is, status_is.
      destruct Hst as [Hst|Hst]; rewrite Hst; simpl; apply andb_false_r.
    + rewrite (update_task_raise_unchanged i u clk db db' e Hu). exact Hinv.
  - unfold delete_task, delete_commit, first, bind, ret, raise.
    destruct (find (filter_ query_all (id_is i)) db); simpl; [|exact Hinv].
    unfold high_pending_count in *.
    etransitivity; [apply count_filter_le|exact Hinv].
Qed.

Lemma serve_all_keeps_quota (rqs : list (Clock * Request)) (db : Table) :
  high_pending_count db <= 5 -> high_pending_count (serve_all rqs db) <= 5.
Proof.
  revert db. induction rqs as [|[clk rq] rqs IH]; intros db Hinv; simpl.
  - exact Hinv.
  - apply IH. apply serve_keeps_quota. exact Hinv.
Qed.

(** C2. Under sequential execution no request takes the number of
    high-priority pending tasks above 5: one request preserves the bound,
    hence so does every sequence of requests, from the empty table in
    particular.  createTask with priority high is rejected when 5 or more
    such tasks are stored (with the quota failure once the due date is
    valid), the count being taken on the table before insertion; with
    fewer than 5 stored, a high-priority pending task with a valid due
    date is stored and counted, so the 5th succeeds and the 6th fails. *)
Theorem high_pending_quota_invariant :
  (forall rq clk db,
      high_pending_count db <= 5 -> high_pending_count (serve rq clk db) <= 5)
  /\ (forall rqs db,
         high_pending_count db <= 5 ->
         high_pending_count (serve_all rqs db) <= 5)
  /\ (forall rqs, high_pending_count (serve_all rqs []) <= 5)
  /\ (forall task clk db,
         CreateTask.priority task = Some "high" ->
         5 <= high_pending_count db ->
         exists e, create_task task clk db = (Raise e, db)
                   /\ ((today clk < CreateTask.due_date task)%Z ->
                       e = quota_exceeded_on_create))
  /\ (forall task clk db,
         CreateTask.priority task = Some "high" ->
         CreateTask.status task = Some "pending" ->
         (today clk < CreateTask.due_date task)%Z ->
         high_pending_count db < 5 ->
         exists r, create_task task clk db = (Return r, (db ++ [r])%list)
                   /\ high_pending_count (db ++ [r])%list
                      = S (high_pending_count db)).
Proof.
  split; [exact serve_keeps_quota|].
  split; [exact serve_all_keeps_quota|].
  split; [intros rqs; apply serve_all_keeps_quota; unfold high_pending_count; simpl; lia|].
  split.
  - intros task clk db Hp Hc. rewrite create_task_unfold, Hp.
    destruct (Z.leb_spec (CreateTask.due_date task) (today clk)).
    + eexists. split; [reflexivity|]. intros Hd. exfalso. lia.
    + simpl is_in. cbn [negb]. simpl eq_str.
      destruct (Nat.leb_spec 5 (high_pending_count db)); [|lia].
      cbn [andb]. eexists. split; [reflexivity|]. intros; reflexivity.
  - intros task clk db Hp Hs Hd Hc. rewrite create_task_unfold, Hp, Hs.
    destruct (Z.leb_spec (CreateTask.due_date task) (today clk)); [lia|].
    simpl is_in. cbn [negb]. simpl eq_str.
    destruct (Nat.leb_spec 5 (high_pending_count db)); [lia|].
    cbn [andb]. unfold add_commit, to_row. rewrite Hp, Hs.
    eexists. split; [reflexivity|].
    unfold high_pending_count. rewrite count_app. simpl. lia.
Qed.

Lemma high_pending_quota_invariant_witness :
  (exists r, create_task Sample.new_high_pending Sample.clk Sample.four
             = (Return r, (Sample.four ++ [r])%list)
             /\ high_pending_count (Sample.four ++ [r])%list = 5)
  /\ create_task Sample.new_high_pending Sample.clk Sample.five
     = (Raise quota_exceeded_on_create, Sample.five)
  /\ high_pending_count
       (serve (POST_tasks Sample.new_high_pending) Sample.clk Sample.five) <= 5.
Proof.
  destruct high_pending_quota_invariant as [H1 [_ [_ [H6 H5]]]].
  split; [|split].
  - destruct (H5 Sample.new_high_pending Sample.clk Sample.four
                eq_refl eq_refl) as [r [Hr Hn]].
    + simpl. lia.
    + vm_compute. lia.
    + exists r. split; [exact Hr|exact Hn].
  - destruct (H6 Sample.new_high_pending Sample.clk Sample.five eq_refl)
      as [e [He Hq]].
    + vm_compute. lia.
    + rewrite He. rewrite Hq; [reflexivity|simpl; lia].
  - apply H1. vm_compute. lia.
Defined.

(** C4. On an existing task, updateTask with requested priority high
    counts the high-priority pending rows of the whole table, the row
    being updated included, and rejects when that count is 5 or more:
    with the quota failure once the due date is valid, with some failure
    in any case.  So when the target is itself one of exactly 5 such
    rows, fewer than 5 other rows count, and the update is rejected all
    the same. *)
Theorem update_task_quota_counts_target (task_id : Z) (inp : CreateTask.t)
  (clk : Clock) (db : Table) (t : UserDB.t)
  (Hexists : get_task task_id clk db = (Return t, db))
  (Hhigh : CreateTask.priority inp = Some "high")
  (Hcount : 5 <= high_pending_count db) :
  (exists e, update_task task_id inp clk db = (Raise e, db))
  /\ ((today clk < CreateTask.due_date inp)%Z ->
      update_task task_id inp clk db = (Raise quota_exceeded_on_update, db))
  /\ (high_pending t = true -> high_pending_count db = 5 ->
      high_pending_count (filter (fun x => negb (id_is task_id x)) db) < 5).
Proof.
  apply get_task_first in Hexists.
  destruct (find_id _ _ _ Hexists) as [Hid Hin].
  assert (Hupd : update_task task_id inp clk db
                 = if (CreateTask.due_date inp <=? today clk)%Z
                   then (Raise invalid_due_date, db)
                   else (Raise quota_exceeded_on_update, db)).
  { rewrite update_task_unfold, Hexists, Hhigh.
    destruct (CreateTask.due_date inp <=? today clk)%Z; [reflexivity|].
    simpl is_in. cbn [negb]. simpl eq_str.
    destruct (Nat.leb_spec 5 (high_pending_count db)); [reflexivity|lia]. }
  rewrite Hupd. split; [|split].
  - destruct (CreateTask.due_date inp <=? today clk)%Z; eexists; reflexivity.
  - intros Hd.
    destruct (Z.leb_spec (CreateTask.due_date inp) (today clk));
      [lia|reflexivity].
  - intros Ht H5. rewrite <- H5. unfold high_pending_count.
    apply (count_filter_lt _ _ _ t Hin Ht).
    unfold id_is. rewrite Hid, Z.eqb_refl. reflexivity.
Qed.

Lemma update_task_quota_counts_target_witness :
  update_task 3 Sample.keep_high_start Sample.clk Sample.five
  = (Raise quota_exceeded_on_update, Sample.five)
  /\ high_pending_count (filter (fun x => negb (id_is 3 x)) Sample.five) < 5.
Proof.
  assert (Hc : 5 <= high_pending_count Sample.five) by (vm_compute; lia).
  destruct (update_task_quota_counts_target 3 Sample.keep_high_start
              Sample.clk Sample.five (Sample.high_pending_row 3)
              eq_refl eq_refl Hc) as [_ [H Hothers]].
  split.
  - apply H. simpl. lia.
  - apply Hothers; reflexivity.
Defined.

(** ** completed_at *)

Lemma parse_status_text (s : string) (st : Status) :
  parse_status s = Some st -> s = status_text st.
Proof.
  unfold parse_status. status_cases s; simpl; intros H; inversion H;
    reflexivity.
Qed.

Lemma transition_table_allowed (cur req : option Status) :
  (transition_table cur req = Allowed_no_side_effect ->
   cur = Some Pending /\ req = Some InProgress)
  /\ (transition_table cur req = Allowed_sets_completed_at ->
      cur = Some InProgress /\ req = Some Completed).
Proof.
  destruct cur as [[| |]|], req as [[| |]|]; simpl; split; intros H;
    try discriminate; split; reflexivity.
Qed.

Lemma first_get_task (task_id : Z) (clk : Clock) (db : Table) (t : UserDB.t) :
  find (filter_ query_all (id_is task_id)) db = Some t ->
  get_task task_id clk db = (Return t, db).
Proof. intros H. unfold_handler. rewrite H. reflexivity. Qed.

(** C5 (counterexample). Starting a pending task whose completed_at is
    null, with a body that carries a completed_at, is accepted: the
    stored task is in_progress, not completed, and its completed_at is
    the caller's value. *)
Lemma update_task_stores_caller_completed_at :
  UserDB.completed_at Sample.pending_row = None
  /\ exists r,
       update_task 1 Sample.start_with_timestamp Sample.clk [Sample.pending_row]
       = (Return r, [r])
       /\ UserDB.status r = "in_progress"
       /\ UserDB.status r <> "completed"
       /\ UserDB.completed_at r = Some 42%Z
       /\ UserDB.completed_at r <> None.
Proof.
  split; [reflexivity|].
  eexists. split; [reflexivity|]. simpl.
  repeat split; discriminate.
Qed.

(** C5 (amended). An accepted update is one of two transitions of the
    target row and rewrites that row only: in_progress to completed,
    where the stored completed_at is the current timestamp (so it is
    non-null), or pending to in_progress, where the stored completed_at
    is whatever the caller supplied. *)
Theorem update_task_completed_at (task_id : Z) (inp : CreateTask.t)
  (clk : Clock) (db db' : Table) (r : UserDB.t) :
  update_task task_id inp clk db = (Return r, db') ->
  exists t,
    get_task task_id clk db = (Return t, db)
    /\ db' = stored_under task_id r db
    /\ (UserDB.status t = "in_progress"
        /\ UserDB.status r = "completed"
        /\ UserDB.completed_at r = Some (now clk)
        \/ UserDB.status t = "pending"
           /\ UserDB.status r = "in_progress"
           /\ UserDB.completed_at r = CreateTask.completed_at inp).
Proof.
  intros H.
  destruct (update_task_cases task_id inp clk db)
    as [[e He]|[t [u [r' [Hf [Hu [Hr He]]]]]]]; rewrite He in H;
    [discriminate|].
  inversion H; subst r' db'. exists t.
  split; [apply first_get_task; exact Hf|]. split; [reflexivity|].
  unfold to_row in Hr.
  destruct Hu as [[Htab Hu]|[Htab Hu]]; subst u.
  - right. apply (proj1 (transition_table_allowed _ _)) in Htab.
    destruct Htab as [Hc Hq].
    apply parse_status_text in Hc.
    destruct (CreateTask.status inp) as [rq|]; [|discriminate].
    simpl in Hq. apply parse_status_text in Hq. subst rq.
    destruct (CreateTask.priority inp); [|discriminate].
    inversion Hr. simpl. repeat split; assumption || reflexivity.
  - left. apply (proj2 (transition_table_allowed _ _)) in Htab.
    destruct Htab as [Hc Hq].
    apply parse_status_text in Hc.
    destruct (CreateTask.status inp) as [rq|] eqn:Hrq; [|discriminate].
    simpl in Hq. apply parse_status_text in Hq. subst rq.
    simpl in Hr. rewrite Hrq in Hr.
    destruct (CreateTask.priority inp); [|discriminate].
    inversion Hr. simpl. repeat split; assumption || reflexivity.
Qed.

Lemma update_task_completed_at_witness :
  exists r t,
    get_task 1 Sample.clk [Sample.started_row] = (Return t, [Sample.started_row])
    /\ update_task 1 Sample.complete_it Sample.clk [Sample.started_row]
       = (Return r, stored_under 1 r [Sample.started_row])
    /\ UserDB.completed_at r = Some 77%Z.
Proof.
  destruct (update_task_completed_at 1 Sample.complete_it Sample.clk
              [Sample.started_row]
              (snd (update_task 1 Sample.complete_it Sample.clk
                      [Sample.started_row]))
              (UserDB.mk 1 "b" None "high" "completed" 10 (Some 77%Z))
              eq_refl)
    as [t [Hg [Hdb _]]].
  eexists. exists t. split; [exact Hg|]. split; reflexivity.
Defined.

(** ** getStats *)

Lemma or_0_id (n : nat) : or_0 n = n.
Proof. unfold or_0. destruct n; reflexivity. Qed.

Lemma count_no_row_matches (q : Query) (db : Table) :
  no_row_matches q db -> List.length (filter q db) = 0.
Proof.
  intros H. induction H as [|x db Hx _ IH]; simpl; [reflexivity|].
  rewrite Hx. exact IH.
Qed.

Lemma count_by_status (db : Table) :
  statuses_in_enum db ->
  List.length (filter (filter_ query_all (status_is "pending")) db)
  + List.length (filter (filter_ query_all (status_is "in_progress")) db)
  + List.length (filter (filter_ query_all (status_is "completed")) db)
  = List.length (filter query_all db).
Proof.
  intros H. induction H as [|x db Hx _ IH]; simpl; [reflexivity|].
  unfold filter_, query_all, status_is in *.
  destruct x as [i ti de pr st dd ca]. simpl in *.
  status_cases st; simpl in *; lia || discriminate.
Qed.

Lemma length_filter_count_where (q : Query) (p : UserDB.t -> bool)
  (db : Table) :
  (forall r, q r = p r) -> List.length (filter q db) = count_where p db.
Proof.
  intros H. induction db as [|x db IH]; simpl; [reflexivity|].
  rewrite <- H, <- IH. destruct (q x); reflexivity.
Qed.

Lemma count_where_all (db : Table) :
  count_where (fun _ => true) db = List.length db.
Proof.
  induction db as [|x db IH]; simpl; [reflexivity|]. rewrite IH. reflexivity.
Qed.

Lemma one_status_of_three (r : UserDB.t) :
  is_in (Some (UserDB.status r)) statuses = true ->
  Nat.b2n (has_status "pending" r) + Nat.b2n (has_status "in_progress" r)
  + Nat.b2n (has_status "completed" r) = 1.
Proof.
  unfold has_status. destruct r as [i ti de pr st dd ca]. simpl.
  status_cases st; simpl; intros H; reflexivity || discriminate.
Qed.

(** C7. getStats always answers, never fails and writes nothing, and
    its six counts are the numbers of rows they name: total counts all
    rows, pending, in_progress and completed the rows of that status,
    overdue the rows with due date before today and status other than
    completed, high_priority_pending the rows of priority high and
    status pending.  A row whose status is pending, in_progress or
    completed is counted by exactly one of the three status counts, so
    when every stored status is one of these the three add up to total;
    and each of the six counts is 0 when no row matches its
    condition. *)
Theorem get_task_stats_partition (clk : Clock) (db : Table) :
  exists s,
    get_task_stats clk db = (Return s, db)
    /\ total s = List.length db
    /\ pending s = count_where (has_status "pending") db
    /\ in_progress s = count_where (has_status "in_progress") db
    /\ completed s = count_where (has_status "completed") db
    /\ overdue s = count_where (is_overdue (today clk)) db
    /\ high_priority_pending s = count_where is_high_priority_pending db
    /\ (forall r,
           is_in (Some (UserDB.status r)) statuses = true ->
           Nat.b2n (has_status "pending" r)
           + Nat.b2n (has_status "in_progress" r)
           + Nat.b2n (has_status "completed" r) = 1)
    /\ (statuses_in_enum db ->
        pending s + in_progress s + completed s = total s)
    /\ (no_row_matches query_all db -> total s = 0)
    /\ (no_row_matches (status_is "pending") db -> pending s = 0)
    /\ (no_row_matches (status_is "in_progress") db -> in_progress s = 0)
    /\ (no_row_matches (status_is "completed") db -> completed s = 0)
    /\ (no_row_matches (is_overdue (today clk)) db -> overdue s = 0)
    /\ (no_row_matches high_pending db -> high_priority_pending s = 0).
Proof.
  eexists. split; [reflexivity|].
  cbn [total pending in_progress completed overdue high_priority_pending].
  rewrite !or_0_id.
  split; [rewrite (length_filter_count_where query_all (fun _ => true) db
                     (fun r => eq_refl));
          apply count_where_all|].
  split; [apply length_filter_count_where; intros r; reflexivity|].
  split; [apply length_filter_count_where; intros r; reflexivity|].
  split; [apply length_filter_count_where; intros r; reflexivity|].
  split; [apply length_filter_count_where; intros r; reflexivity|].
  split; [apply length_filter_count_where; intros r; reflexivity|].
  split; [exact one_status_of_three|].
  split; [apply count_by_status|].
  repeat split; intros H; apply count_no_row_matches;
    unfold no_row_matches in *; (eapply Forall_impl; [|exact H]);
    intros r Hr; unfold filter_, query_all, overdue_on, high_pending,
      is_overdue, due_before, status_is_not, status_is, priority_is in *;
    simpl in *; exact Hr.
Qed.

Lemma get_task_stats_partition_witness :
  exists s,
    get_task_stats Sample.clk Sample.mixed = (Return s, Sample.mixed)
    /\ total s = 3 /\ pending s = 2 /\ completed s = 1 /\ overdue s = 1
    /\ high_priority_pending s = 1
    /\ pending s + in_progress s + completed s = total s
    /\ in_progress s = 0.
Proof.
  destruct (get_task_stats_partition Sample.clk Sample.mixed)
    as [s [Hs [Ht [Hp [_ [Hc [Ho [Hh [_ [Hsum [_ [_ [Hip _]]]]]]]]]]]]].
  exists s. split; [exact Hs|].
  split; [exact Ht|]. split; [exact Hp|]. split; [exact Hc|].
  split; [exact Ho|]. split; [exact Hh|]. split.
  - apply Hsum. repeat constructor.
  - apply Hip. repeat constructor.
Defined.

(** ** listTasks *)

Lemma In_firstn {A : Type} (n : nat) (l : list A) (x : A) :
  In x (firstn n l) -> In x l.
Proof.
  revert l. induction n as [|n IH]; intros [|y l]; simpl; try contradiction.
  intros [H|H]; [left; exact H|right; apply IH; exact H].
Qed.

Lemma In_skipn {A : Type} (n : nat) (l : list A) (x : A) :
  In x (skipn n l) -> In x l.
Proof.
  revert l. induction n as [|n IH]; intros [|y l]; simpl; try contradiction.
  - intros H; exact H.
  - intros H. right. apply IH. exact H.
Qed.

Lemma In_window {A : Type} (page limit : Z) (l : list A) (x : A) :
  In x (window page limit l) -> In x l.
Proof. unfold window. intros H. eapply In_skipn, In_firstn, H. Qed.

Lemma get_tasks_unfold (priority status : option string)
  (overdue : option bool) (page limit : Z) (clk : Clock) (db : Table) :
  get_tasks priority status overdue (Some page) (Some limit) clk db =
  if (1 <=? page)%Z
  then if (1 <=? limit)%Z && (limit <=? 100)%Z
       then (Return
               (window page limit
                  (filter (supplied_filters_hold priority status overdue
                             (today clk)) db)), db)
       else (Raise RequestValidationError, db)
  else (Raise RequestValidationError, db).
Proof.
  unfold get_tasks, QueryParam, offset_limit_all, date_today, bind, ret, raise,
    window.
  destruct (1 <=? page)%Z; [|reflexivity]. cbn [andb].
  destruct ((1 <=? limit)%Z && (limit <=? 100)%Z); [|reflexivity].
  assert (Hext : forall q q' : Query, (forall r, q r = q' r) ->
                 filter q db = filter q' db)
    by (intros q q' Hq; apply filter_ext; exact Hq).
  destruct (truthy_bool overdue) eqn:Ho; cbn beta iota;
    (f_equal; f_equal; f_equal; f_equal; apply Hext; intros r;
     unfold supplied_filters_hold, filter_, query_all, due_before,
       status_is_not;
     rewrite Ho;
     destruct (truthy_str priority), (truthy_str status); simpl;
     repeat rewrite andb_true_r; repeat rewrite andb_assoc; reflexivity).
Qed.

Lemma text_filter_agrees (wanted : option string) (value : string) :
  (if truthy_str wanted then eq_str wanted value else true)
  = text_filter_holds wanted value.
Proof.
  destruct wanted as [[|c w]|]; try reflexivity.
  change (String.eqb (String c w) value = String.eqb value (String c w)).
  apply String.eqb_sym.
Qed.

Lemma all_filters_agree (priority status : option string)
  (overdue : option bool) (today : Z) (r : UserDB.t) :
  supplied_filters_hold priority status overdue today r
  = all_filters_hold priority status overdue today r.
Proof.
  unfold supplied_filters_hold, all_filters_hold.
  rewrite !text_filter_agrees. f_equal.
  destruct overdue as [[|]|]; reflexivity.
Qed.

Lemma text_filter_holds_iff (wanted : option string) (value : string) :
  text_filter_holds wanted value = true <->
  (forall w, wanted = Some w -> w <> EmptyString -> value = w).
Proof.
  destruct wanted as [[|c w]|].
  - split; [|reflexivity]. intros _ w0 H Hne. inversion H. subst w0.
    exfalso. apply Hne. reflexivity.
  - change (text_filter_holds (Some (String c w)) value)
      with (String.eqb value (String c w)).
    rewrite String.eqb_eq. split.
    + intros H w0 H0 _. inversion H0. subst w0. exact H.
    + intros H. apply H; [reflexivity|discriminate].
  - split; [|reflexivity]. intros _ w0 H. discriminate.
Qed.

Lemma all_filters_hold_iff (priority status : option string)
  (overdue : option bool) (today : Z) (r : UserDB.t) :
  all_filters_hold priority status overdue today r = true <->
  satisfies_filters priority status overdue today r.
Proof.
  unfold all_filters_hold, satisfies_filters.
  rewrite !andb_true_iff, !text_filter_holds_iff.
  assert (Ho : overdue_filter_holds overdue today r = true <->
               (overdue = Some true ->
                (UserDB.due_date r < today)%Z
                /\ UserDB.status r <> "completed")).
  { destruct overdue as [[|]|]; simpl.
    - unfold is_overdue. rewrite andb_true_iff, Z.ltb_lt, negb_true_iff,
        String.eqb_neq. split; [intros H _; exact H|intros H; apply H].
      reflexivity.
    - split; [intros _ H; discriminate|reflexivity].
    - split; [intros _ H; discriminate|reflexivity]. }
  rewrite Ho. tauto.
Qed.

Lemma get_tasks_defaults (priority status : option string)
  (overdue : option bool) (page limit : option Z) (clk : Clock) (db : Table) :
  get_tasks priority status overdue page limit clk db
  = get_tasks priority status overdue (Some (page_or_default page))
      (Some (limit_or_default limit)) clk db.
Proof. destruct page, limit; reflexivity. Qed.

(** C6. With page at least 1 and limit between 1 and 100, listTasks
    answers the pagination window (offset (page - 1) * limit, at most
    limit rows) of the rows that satisfy all supplied filters at once:
    a row is among the filtered rows exactly when it is stored, has the
    wanted priority, has the wanted status, and is overdue when that is
    asked; with overdue = true as the only filter these are exactly the
    rows with due_date before today and status other than completed,
    and a first page large enough holds all of them.  A page below 1 or
    a limit outside 1..100 is refused.  An absent page stands for 1 and
    an absent limit for 10, each on its own as well as both together. *)
Theorem get_tasks_filters_and_window (priority status : option string)
  (overdue : option bool) (page limit : Z) (clk : Clock) (db : Table) :
  ((1 <= page)%Z -> (1 <= limit <= 100)%Z ->
   get_tasks priority status overdue (Some page) (Some limit) clk db
   = (Return (window page limit
                (filter (supplied_filters_hold priority status overdue
                           (today clk)) db)), db)
   /\ get_tasks None None (Some true) (Some page) (Some limit) clk db
      = (Return (window page limit (filter (is_overdue (today clk)) db)), db)
   /\ (forall r,
          In r (window page limit (filter (is_overdue (today clk)) db)) ->
          In r db
          /\ (UserDB.due_date r < today clk)%Z
          /\ UserDB.status r <> "completed")
   /\ Z.to_nat ((page - 1) * limit) = (Z.to_nat page - 1) * Z.to_nat limit
   /\ get_tasks priority status overdue (Some page) (Some limit) clk db
      = (Return (window page limit
                   (filter (all_filters_hold priority status overdue
                              (today clk)) db)), db)
   /\ (forall r,
          In r (filter (all_filters_hold priority status overdue (today clk))
                  db)
          <-> In r db
              /\ satisfies_filters priority status overdue (today clk) r)
   /\ (List.length
         (filter (all_filters_hold priority status overdue (today clk)) db)
       <= Z.to_nat limit ->
       get_tasks priority status overdue (Some 1%Z) (Some limit) clk db
       = (Return (filter (all_filters_hold priority status overdue
                            (today clk)) db), db)))
  /\ ((page < 1 \/ limit < 1 \/ 100 < limit)%Z ->
      get_tasks priority status overdue (Some page) (Some limit) clk db
      = (Raise RequestValidationError, db))
  /\ get_tasks priority status overdue None None clk db
     = get_tasks priority status overdue (Some 1%Z) (Some 10%Z) clk db
  /\ get_tasks priority status overdue (Some page) None clk db
     = get_tasks priority status overdue (Some page) (Some 10%Z) clk db
  /\ get_tasks priority status overdue None (Some limit) clk db
     = get_tasks priority status overdue (Some 1%Z) (Some limit) clk db
  /\ (forall pg lm,
         get_tasks priority status overdue pg lm clk db
         = get_tasks priority status overdue (Some (page_or_default pg))
             (Some (limit_or_default lm)) clk db).
Proof.
  assert (Hsame : filter (supplied_filters_hold priority status overdue
                            (today clk)) db
                  = filter (all_filters_hold priority status overdue
                              (today clk)) db)
    by (apply filter_ext; intros r; apply all_filters_agree).
  split; [|split; [|split; [|split; [|split]]]].
  - intros Hp Hl. rewrite !get_tasks_unfold.
    destruct (Z.leb_spec 1 page); [|lia].
    destruct (Z.leb_spec 1 limit); [|lia].
    destruct (Z.leb_spec limit 100); [|lia].
    cbn [andb]. split; [reflexivity|]. split; [|split; [|split]].
    + reflexivity.
    + intros r Hr. apply In_window in Hr. apply filter_In in Hr.
      destruct Hr as [Hin Ho]. split; [exact Hin|].
      unfold is_overdue in Ho. apply andb_true_iff in Ho.
      destruct Ho as [Hd Hs]. split.
      * apply Z.ltb_lt. exact Hd.
      * apply negb_true_iff in Hs. apply String.eqb_neq. exact Hs.
    + rewrite Z2Nat.inj_mul by lia. rewrite Z2Nat.inj_sub by lia.
      reflexivity.
    + split; [rewrite Hsame; reflexivity|]. split.
      * intros r. rewrite filter_In, all_filters_hold_iff. reflexivity.
      * intros Hlen. cbn [Z.leb Z.compare Pos.compare Pos.compare_cont].
        rewrite Hsame. unfold window.
        replace (Z.to_nat ((1 - 1) * limit)) with 0 by reflexivity.
        cbn [skipn]. rewrite (firstn_all2 _ Hlen). reflexivity.
  - intros H. rewrite get_tasks_unfold.
    destruct (Z.leb_spec 1 page); [|reflexivity].
    destruct (Z.leb_spec 1 limit); [|reflexivity].
    destruct (Z.leb_spec limit 100); [|reflexivity]. lia.
  - reflexivity.
  - reflexivity.
  - reflexivity.
  - intros pg lm. apply get_tasks_defaults.
Qed.

Lemma get_tasks_filters_and_window_witness :
  get_tasks None None (Some true) (Some 1%Z) (Some 10%Z) Sample.clk Sample.mixed
  = (Return [Sample.overdue_row], Sample.mixed)
  /\ get_tasks None None (Some true) (Some 0%Z) (Some 10%Z) Sample.clk Sample.mixed
     = (Raise RequestValidationError, Sample.mixed)
  /\ get_tasks (Some "low") (Some "pending") (Some true) (Some 1%Z) None
       Sample.clk Sample.mixed
     = (Return [Sample.overdue_row], Sample.mixed)
  /\ get_tasks (Some "high") None None None (Some 1%Z) Sample.clk Sample.mixed
     = (Return [Sample.high_pending_row 3], Sample.mixed)
  /\ get_tasks (Some "low") None None (Some 2%Z) (Some 1%Z) Sample.clk
       Sample.mixed
     = (Return [Sample.overdue_row], Sample.mixed).
Proof.
  destruct (get_tasks_filters_and_window None None (Some true) 1 10
              Sample.clk Sample.mixed) as [H _].
  destruct (get_tasks_filters_and_window None None (Some true) 0 10
              Sample.clk Sample.mixed) as [_ [H0 _]].
  destruct (get_tasks_filters_and_window (Some "low") (Some "pending")
              (Some true) 1 10 Sample.clk Sample.mixed)
    as [Hlp [_ [_ [Hlim _]]]].
  destruct (get_tasks_filters_and_window (Some "high") None None 1 1
              Sample.clk Sample.mixed) as [Hh [_ [_ [_ [Hpage _]]]]].
  destruct (get_tasks_filters_and_window (Some "low") None None 2 1
              Sample.clk Sample.mixed) as [Hl2 _].
  split; [|split; [|split; [|split]]].
  - destruct H as [_ [H _]]; [lia|lia|]. rewrite H. reflexivity.
  - apply H0. left. lia.
  - rewrite Hlim.
    destruct Hlp as [_ [_ [_ [_ [E _]]]]]; [lia|lia|]. rewrite E. reflexivity.
  - rewrite Hpage.
    destruct Hh as [_ [_ [_ [_ [E _]]]]]; [lia|lia|]. rewrite E. reflexivity.
  - destruct Hl2 as [_ [_ [_ [_ [E _]]]]]; [lia|lia|]. rewrite E. reflexivity.
Defined.

(** ** The title *)

(** C9 (counterexample). A create request whose title is the empty
    string, with the other fields acceptable, is accepted, and the task
    with the empty title is in the table afterwards. *)
Lemma create_task_persists_empty_title :
  CreateTask.title Sample.untitled = EmptyString
  /\ CreateTask.model_validate Sample.untitled_body = Some Sample.untitled
  /\ exists r,
       post_tasks Sample.untitled_body Sample.clk [] = (Return r, [r])
       /\ create_task Sample.untitled Sample.clk [] = (Return r, [r])
       /\ UserDB.title r = EmptyString.
Proof.
  split; [reflexivity|]. split; [reflexivity|].
  eexists. split; [reflexivity|]. split; reflexivity.
Qed.

(** C9 (amended). The title is required but may be empty: a body
    without a title (absent or null) is refused before the handler runs
    and nothing is written, while createTask itself never looks at the
    title, so a call fails for the empty title exactly as for any other
    title, and where a task is stored for some title, one is stored with
    the empty title too. *)
Theorem create_task_ignores_title (task : CreateTask.t) (clk : Clock)
  (db : Table) :
  match create_task task clk db with
  | (Raise e, _) =>
      create_task (with_title task EmptyString) clk db = (Raise e, db)
  | (Return r, _) =>
      exists r',
        create_task (with_title task EmptyString) clk db
        = (Return r', (db ++ [r'])%list)
        /\ UserDB.title r' = EmptyString
        /\ UserDB.id r' = UserDB.id r
  end
  /\ forall b, CreateTask.required (CreateTask.b_title b) = None ->
               post_tasks b clk db = (Raise RequestValidationError, db).
Proof.
  split.
  - rewrite !create_task_unfold. unfold with_title.
    cbn [CreateTask.due_date CreateTask.priority CreateTask.status].
    destruct (CreateTask.due_date task <=? today clk)%Z;
      [cbv beta iota; reflexivity|].
    destruct (negb (is_in (CreateTask.priority task) priorities));
      [cbv beta iota; reflexivity|].
    destruct (eq_str (CreateTask.priority task) "high"
              && (5 <=? high_pending_count db)%nat);
      [cbv beta iota; reflexivity|].
    destruct (negb (is_in (CreateTask.status task) statuses));
      [cbv beta iota; reflexivity|].
    unfold add_commit, to_row. simpl.
    destruct (CreateTask.priority task); [|cbv beta iota; reflexivity].
    destruct (CreateTask.status task); [|cbv beta iota; reflexivity].
    cbv beta iota. eexists. split; [cbv beta iota; reflexivity|]. split; reflexivity.
  - intros b Hb. unfold post_tasks, CreateTask.model_validate.
    rewrite Hb. reflexivity.
Qed.

Lemma create_task_ignores_title_witness :
  (exists r,
      create_task (with_title Sample.new_high_pending EmptyString)
        Sample.clk Sample.four
      = (Return r, (Sample.four ++ [r])%list)
      /\ UserDB.title r = EmptyString)
  /\ post_tasks (CreateTask.mk_body CreateTask.Omitted CreateTask.Omitted
                   CreateTask.Omitted CreateTask.Omitted
                   (CreateTask.Given 10%Z) CreateTask.Omitted)
       Sample.clk Sample.four
     = (Raise RequestValidationError, Sample.four).
Proof.
  destruct (create_task_ignores_title Sample.new_high_pending Sample.clk
              Sample.four) as [Hc Hb].
  split.
  - simpl in Hc. destruct Hc as [r [Hr [Ht _]]].
    exists r. split; [exact Hr|exact Ht].
  - apply Hb. reflexivity.
Defined.

(** ** Defaults of the request body *)







(** * Further properties of the handlers *)

(** ** Lookup by primary key *)

Lemma by_id_eqb (i : Z) (r : UserDB.t) :
  filter_ query_all (id_is i) r = (UserDB.id r =? i)%Z.
Proof. reflexivity. Qed.

Lemma id_is_eqb (i : Z) (r : UserDB.t) : id_is i r = (UserDB.id r =? i)%Z.
Proof. reflexivity. Qed.

Lemma get_task_unfold (task_id : Z) (clk : Clock) (db : Table) :
  get_task task_id clk db =
  match find (filter_ query_all (id_is task_id)) db with
  | Some t => (Return t, db)
  | None => (Raise not_found, db)
  end.
Proof.
  unfold get_task, first, bind, ret, raise.
  destruct (find (filter_ query_all (id_is task_id)) db); reflexivity.
Qed.

Lemma delete_task_unfold (task_id : Z) (clk : Clock) (db : Table) :
  delete_task task_id clk db =
  match find (filter_ query_all (id_is task_id)) db with
  | Some t => (Return tt, filter (fun x => negb (id_is task_id x)) db)
  | None => (Raise not_found, db)
  end.
Proof.
  unfold delete_task, delete_commit, first, bind, ret, raise.
  destruct (find (filter_ query_all (id_is task_id)) db) as [t|] eqn:Hf;
    [|reflexivity].
  destruct (find_id _ _ _ Hf) as [Hid _]. rewrite Hid. reflexivity.
Qed.

Lemma find_none_ids (i : Z) (db : Table) :
  find (filter_ query_all (id_is i)) db = None <->
  (forall r, In r db -> UserDB.id r <> i).
Proof.
  split.
  - intros H r Hin Hid. apply (find_none _ _ H) in Hin.
    rewrite by_id_eqb in Hin. apply Z.eqb_neq in Hin. contradiction.
  - intros H. induction db as [|x db IH]; simpl; [reflexivity|].
    rewrite by_id_eqb.
    destruct (Z.eqb_spec (UserDB.id x) i) as [E|E].
    + exfalso. apply (H x); [left; reflexivity|exact E].
    + apply IH. intros r Hin. apply H. right. exact Hin.
Qed.

Lemma find_deleted (i : Z) (db : Table) :
  find (filter_ query_all (id_is i))
       (filter (fun x => negb (id_is i x)) db) = None.
Proof.
  apply find_none_ids. intros r Hin Hid. apply filter_In in Hin.
  destruct Hin as [_ Hn]. unfold id_is in Hn. rewrite Hid, Z.eqb_refl in Hn.
  discriminate.
Qed.

Lemma find_other_deleted (i j : Z) (db : Table) :
  i <> j ->
  find (filter_ query_all (id_is j))
       (filter (fun x => negb (id_is i x)) db)
  = find (filter_ query_all (id_is j)) db.
Proof.
  intros Hij. induction db as [|x db IH]; simpl; [reflexivity|].
  rewrite id_is_eqb, by_id_eqb.
  destruct (Z.eqb_spec (UserDB.id x) i) as [Ei|Ei]; simpl.
  - destruct (Z.eqb_spec (UserDB.id x) j) as [Ej|Ej]; [congruence|exact IH].
  - rewrite by_id_eqb. destruct (UserDB.id x =? j)%Z; [reflexivity|exact IH].
Qed.

Lemma find_stored (i : Z) (r t : UserDB.t) (db : Table) :
  UserDB.id r = i ->
  find (filter_ query_all (id_is i)) db = Some t ->
  find (filter_ query_all (id_is i)) (stored_under i r db) = Some r.
Proof.
  intros Hr. unfold stored_under.
  induction db as [|x db IH]; simpl; [discriminate|].
  rewrite id_is_eqb, by_id_eqb.
  destruct (Z.eqb_spec (UserDB.id x) i) as [E|E]; simpl.
  - intros _. rewrite by_id_eqb, Hr, Z.eqb_refl. reflexivity.
  - rewrite by_id_eqb. destruct (Z.eqb_spec (UserDB.id x) i); [contradiction|].
    exact IH.
Qed.

Lemma find_other_stored (i j : Z) (r : UserDB.t) (db : Table) :
  UserDB.id r = i -> i <> j ->
  find (filter_ query_all (id_is j)) (stored_under i r db)
  = find (filter_ query_all (id_is j)) db.
Proof.
  intros Hr Hij. unfold stored_under.
  induction db as [|x db IH]; simpl; [reflexivity|].
  rewrite id_is_eqb, by_id_eqb.
  destruct (Z.eqb_spec (UserDB.id x) i) as [Ei|Ei]; simpl;
    rewrite by_id_eqb.
  - rewrite Hr.
    destruct (Z.eqb_spec i j); [contradiction|].
    destruct (Z.eqb_spec (UserDB.id x) j); [congruence|]. exact IH.
  - destruct (UserDB.id x =? j)%Z; [reflexivity|exact IH].
Qed.

Lemma next_id_above (db : Table) (r : UserDB.t) :
  In r db -> (UserDB.id r < next_id db)%Z.
Proof.
  unfold next_id. induction db as [|x db IH]; simpl; [contradiction|].
  intros [E|Hin]; [subst x; lia|]. specialize (IH Hin). lia.
Qed.

Lemma next_id_positive (db : Table) : (1 <= next_id db)%Z.
Proof.
  unfold next_id. induction db as [|x db IH]; simpl; lia.
Qed.

Lemma find_appended (q : Query) (db : Table) (r : UserDB.t) :
  find q (db ++ [r])%list
  = match find q db with
    | Some x => Some x
    | None => if q r then Some r else None
    end.
Proof.
  induction db as [|x db IH]; simpl; [reflexivity|].
  destruct (q x); [reflexivity|exact IH].
Qed.

Lemma to_row_id (i : Z) (u : CreateTask.t) (r : UserDB.t) :
  to_row i u = Some r -> UserDB.id r = i.
Proof.
  unfold to_row. destruct (CreateTask.priority u); [|discriminate].
  destruct (CreateTask.status u); [|discriminate].
  intros H. inversion H. reflexivity.
Qed.

(** Every way [create_task] can end. *)
Lemma create_task_cases (task : CreateTask.t) (clk : Clock) (db : Table) :
  (exists e, create_task task clk db = (Raise e, db))
  \/ (exists r, to_row (next_id db) task = Some r
                /\ is_in (CreateTask.priority task) priorities = true
                /\ is_in (CreateTask.status task) statuses = true
                /\ create_task task clk db = (Return r, (db ++ [r])%list)).
Proof.
  rewrite create_task_unfold.
  destruct (CreateTask.due_date task <=? today clk)%Z;
    [left; eexists; reflexivity|].
  destruct (is_in (CreateTask.priority task) priorities) eqn:Hp;
    [|left; eexists; reflexivity].
  cbn [negb].
  destruct (eq_str (CreateTask.priority task) "high"
            && (5 <=? high_pending_count db)%nat);
    [left; eexists; reflexivity|].
  destruct (is_in (CreateTask.status task) statuses) eqn:Hs;
    [|left; eexists; reflexivity].
  cbn [negb].
  destruct (add_commit_cases task clk db) as [[r [Hr Ha]]|Ha]; rewrite Ha.
  - right. exists r. repeat split; assumption || reflexivity.
  - left. eexists. reflexivity.
Qed.

(** ** deleteTask *)

(** X1. After a delete request for an id, whether it succeeded or not,
    the id is gone: getting it and deleting it again both answer 404 and
    write nothing.  Deleting an id no row carries answers 404 and leaves
    the table as it was; in every case the rows left are exactly the
    rows with another id. *)
Theorem delete_task_removes_for_good (task_id : Z) (clk clk' : Clock)
  (db : Table) :
  get_task task_id clk' (snd (delete_task task_id clk db))
  = (Raise not_found, snd (delete_task task_id clk db))
  /\ delete_task task_id clk' (snd (delete_task task_id clk db))
     = (Raise not_found, snd (delete_task task_id clk db))
  /\ ((forall r, In r db -> UserDB.id r <> task_id) ->
      delete_task task_id clk db = (Raise not_found, db))
  /\ (forall r, In r (snd (delete_task task_id clk db))
                <-> In r db /\ UserDB.id r <> task_id).
Proof.
  assert (Hgone : find (filter_ query_all (id_is task_id))
                       (snd (delete_task task_id clk db)) = None).
  { rewrite delete_task_unfold.
    destruct (find (filter_ query_all (id_is task_id)) db) eqn:Hf; simpl.
    - apply find_deleted.
    - exact Hf. }
  split; [|split; [|split]].
  - rewrite get_task_unfold, Hgone. reflexivity.
  - rewrite (delete_task_unfold task_id clk'), Hgone. reflexivity.
  - intros H. rewrite delete_task_unfold.
    rewrite (proj2 (find_none_ids task_id db) H). reflexivity.
  - intros r. rewrite delete_task_unfold.
    destruct (find (filter_ query_all (id_is task_id)) db) eqn:Hf; simpl.
    + rewrite filter_In, id_is_eqb, negb_true_iff, Z.eqb_neq. reflexivity.
    + split; [|intros [H _]; exact H].
      intros Hin. split; [exact Hin|].
      apply (proj1 (find_none_ids task_id db) Hf). exact Hin.
Qed.

Lemma delete_task_removes_for_good_witness :
  delete_task 7 Sample.clk Scenario.three = (Raise not_found, Scenario.three).
Proof.
  destruct (delete_task_removes_for_good 7 Sample.clk Sample.clk
              Scenario.three) as [_ [_ [H _]]].
  apply H. intros r Hin. simpl in Hin.
  destruct Hin as [E|[E|[E|[]]]]; subst r; simpl; lia.
Defined.

(** ** createTask and getTask *)

(** X2. A task that createTask stored can be fetched at once under the
    id it was given: getTask answers the very row createTask returned.
    That id is at least 1 and larger than the id of every row stored
    before. *)
Theorem create_task_then_get (task : CreateTask.t) (clk clk' : Clock)
  (db db' : Table) (r : UserDB.t) :
  create_task task clk db = (Return r, db') ->
  get_task (UserDB.id r) clk' db' = (Return r, db')
  /\ (1 <= UserDB.id r)%Z
  /\ (forall x, In x db -> (UserDB.id x < UserDB.id r)%Z).
Proof.
  intros H.
  destruct (create_task_cases task clk db)
    as [[e He]|[r' [Hr [_ [_ He]]]]]; rewrite He in H; [discriminate|].
  inversion H; subst r' db'. apply to_row_id in Hr.
  assert (Hfresh : forall x, In x db -> (UserDB.id x < UserDB.id r)%Z).
  { intros x Hin. rewrite Hr. apply next_id_above. exact Hin. }
  split; [|split].
  - rewrite get_task_unfold, find_appended.
    assert (Hn : find (filter_ query_all (id_is (UserDB.id r))) db = None).
    { apply find_none_ids. intros x Hin. specialize (Hfresh x Hin). lia. }
    rewrite Hn, by_id_eqb, Z.eqb_refl. reflexivity.
  - rewrite Hr. apply next_id_positive.
  - exact Hfresh.
Qed.

Lemma create_task_then_get_witness :
  get_task 4 Sample.clk
    (Scenario.three ++ [UserDB.mk 4 "n" None "low" "pending" 10 None])%list
  = (Return (UserDB.mk 4 "n" None "low" "pending" 10 None),
     (Scenario.three ++ [UserDB.mk 4 "n" None "low" "pending" 10 None])%list).
Proof.
  apply (create_task_then_get Scenario.new_low Sample.clk Sample.clk
           Scenario.three
           (Scenario.three ++ [UserDB.mk 4 "n" None "low" "pending" 10 None])%list
           (UserDB.mk 4 "n" None "low" "pending" 10 None)).
  reflexivity.
Defined.

(** ** Primary keys stay unique *)

Lemma ids_stored_under (i : Z) (r : UserDB.t) (db : Table) :
  UserDB.id r = i ->
  map UserDB.id (stored_under i r db) = map UserDB.id db.
Proof.
  intros Hr. unfold stored_under. induction db as [|x db IH]; simpl;
    [reflexivity|].
  rewrite IH, id_is_eqb.
  destruct (Z.eqb_spec (UserDB.id x) i) as [E|E]; [|reflexivity].
  rewrite Hr, E. reflexivity.
Qed.

Lemma ids_unique_filter (c : UserDB.t -> bool) (db : Table) :
  ids_unique db -> ids_unique (filter c db).
Proof.
  unfold ids_unique. induction db as [|x db IH]; simpl; intros H;
    [exact H|].
  inversion H as [|y l Hnot Hrest]; subst.
  destruct (c x); simpl.
  - constructor; [|apply IH; exact Hrest].
    intros Hin. apply Hnot. apply in_map_iff in Hin.
    destruct Hin as [z [Hz Hin]]. apply filter_In in Hin.
    apply in_map_iff. exists z. split; [exact Hz|apply Hin].
  - apply IH. exact Hrest.
Qed.

Lemma ids_unique_appended (db : Table) (r : UserDB.t) :
  UserDB.id r = next_id db -> ids_unique db -> ids_unique (db ++ [r])%list.
Proof.
  unfold ids_unique. intros Hr H. rewrite map_app. simpl.
  apply NoDup_app; [exact H|repeat constructor; intros []|].
  intros a Hin [Ha|[]]. subst a. apply in_map_iff in Hin.
  destruct Hin as [x [Hx Hin]]. apply next_id_above in Hin. lia.
Qed.

Lemma serve_keeps_ids_unique (rq : Request) (clk : Clock) (db : Table) :
  ids_unique db -> ids_unique (serve rq clk db).
Proof.
  intros Hinv. destruct rq as [task|p s o pg lm| |i|i u|i]; cbn [serve].
  - destruct (create_task_cases task clk db)
      as [[e He]|[r [Hr [_ [_ He]]]]]; rewrite He; simpl; [exact Hinv|].
    apply ids_unique_appended; [apply (to_row_id _ _ _ Hr)|exact Hinv].
  - rewrite read_only_get_tasks. exact Hinv.
  - rewrite read_only_get_task_stats. exact Hinv.
  - rewrite read_only_get_task. exact Hinv.
  - destruct (update_task_cases i u clk db)
      as [[e He]|[t [u' [r [_ [_ [Hr He]]]]]]]; rewrite He; simpl;
      [exact Hinv|].
    unfold ids_unique. rewrite ids_stored_under; [exact Hinv|].
    apply (to_row_id _ _ _ Hr).
  - rewrite delete_task_unfold.
    destruct (find (filter_ query_all (id_is i)) db); simpl; [|exact Hinv].
    apply ids_unique_filter. exact Hinv.
Qed.

(** X3. No request makes two rows share an id: each route keeps the
    ids of the table pairwise distinct, so after any sequence of requests
    on the empty table every id identifies one row. *)
Theorem ids_stay_unique :
  (forall rq clk db, ids_unique db -> ids_unique (serve rq clk db))
  /\ (forall rqs db, ids_unique db -> ids_unique (serve_all rqs db))
  /\ (forall rqs, ids_unique (serve_all rqs [])).
Proof.
  assert (Hall : forall rqs db, ids_unique db -> ids_unique (serve_all rqs db)).
  { induction rqs as [|[clk rq] rqs IH]; intros db Hinv; simpl.
    - exact Hinv.
    - apply IH. apply serve_keeps_ids_unique. exact Hinv. }
  split; [exact serve_keeps_ids_unique|]. split; [exact Hall|].
  intros rqs. apply Hall. constructor.
Qed.

Lemma ids_stay_unique_witness :
  ids_unique (serve (POST_tasks Scenario.new_low) Sample.clk Scenario.three).
Proof.
  apply (proj1 ids_stay_unique).
  unfold ids_unique. simpl.
  repeat constructor; simpl; intros H;
    repeat (destruct H as [H|H]; [discriminate|]); exact H.
Defined.

(** ** updateTask and getTask *)

(** X4. After an accepted update, getTask on the same id answers the
    very row updateTask returned, and that row kept its id. *)
Theorem update_task_then_get (task_id : Z) (inp : CreateTask.t)
  (clk clk' : Clock) (db db' : Table) (r : UserDB.t) :
  update_task task_id inp clk db = (Return r, db') ->
  UserDB.id r = task_id
  /\ get_task task_id clk' db' = (Return r, db').
Proof.
  intros H.
  destruct (update_task_cases task_id inp clk db)
    as [[e He]|[t [u [r' [Hf [_ [Hr He]]]]]]]; rewrite He in H;
    [discriminate|].
  inversion H; subst r' db'. apply to_row_id in Hr.
  split; [exact Hr|].
  rewrite get_task_unfold, (find_stored task_id r t db Hr Hf). reflexivity.
Qed.

Lemma update_task_then_get_witness :
  get_task 1 Sample.clk
    (stored_under 1 (UserDB.mk 1 "n" None "low" "in_progress" 10 None)
       Scenario.three)
  = (Return (UserDB.mk 1 "n" None "low" "in_progress" 10 None),
     stored_under 1 (UserDB.mk 1 "n" None "low" "in_progress" 10 None)
       Scenario.three).
Proof.
  apply (update_task_then_get 1 Scenario.start_low Sample.clk Sample.clk
           Scenario.three).
  reflexivity.
Defined.

(** ** Requests leave the other tasks alone *)

(** X5. What getTask answers for an id is not changed by a request
    about another task: a task that exists is still answered, unchanged,
    after any createTask call, and the answer for id [j] is the same
    before and after an update or a delete of a different id, whether
    that request was accepted or not. *)
Theorem other_tasks_untouched (j : Z) (clk clk' : Clock) (db : Table) :
  (forall task t,
      get_task j clk' db = (Return t, db) ->
      fst (get_task j clk' (snd (create_task task clk db))) = Return t)
  /\ (forall i inp,
         i <> j ->
         fst (get_task j clk' (snd (update_task i inp clk db)))
         = fst (get_task j clk' db))
  /\ (forall i,
         i <> j ->
         fst (get_task j clk' (snd (delete_task i clk db)))
         = fst (get_task j clk' db)).
Proof.
  split; [|split].
  - intros task t Hg. apply get_task_first in Hg.
    destruct (create_task_cases task clk db)
      as [[e He]|[r [_ [_ [_ He]]]]]; rewrite He; simpl;
      rewrite get_task_unfold.
    + rewrite Hg. reflexivity.
    + rewrite find_appended, Hg. reflexivity.
  - intros i inp Hij.
    destruct (update_task_cases i inp clk db)
      as [[e He]|[t [u [r [_ [_ [Hr He]]]]]]]; rewrite He; simpl;
      [reflexivity|].
    rewrite !get_task_unfold.
    rewrite (find_other_stored i j r db (to_row_id _ _ _ Hr) Hij).
    destruct (find (filter_ query_all (id_is j)) db); reflexivity.
  - intros i Hij. rewrite delete_task_unfold.
    destruct (find (filter_ query_all (id_is i)) db); simpl; [|reflexivity].
    rewrite !get_task_unfold, (find_other_deleted i j db Hij).
    destruct (find (filter_ query_all (id_is j)) db); reflexivity.
Qed.

Lemma other_tasks_untouched_witness :
  fst (get_task 2 Sample.clk
         (snd (update_task 1 Scenario.start_low Sample.clk Scenario.three)))
  = Return (Scenario.low_row 2 "in_progress")
  /\ fst (get_task 2 Sample.clk
            (snd (delete_task 3 Sample.clk Scenario.three)))
     = Return (Scenario.low_row 2 "in_progress")
  /\ fst (get_task 2 Sample.clk
            (snd (create_task Scenario.new_low Sample.clk Scenario.three)))
     = Return (Scenario.low_row 2 "in_progress").
Proof.
  destruct (other_tasks_untouched 2 Sample.clk Sample.clk Scenario.three)
    as [Hc [Hu Hd]].
  split; [|split].
  - rewrite (Hu 1%Z Scenario.start_low); [reflexivity|lia].
  - rewrite (Hd 3%Z); [reflexivity|lia].
  - apply Hc. reflexivity.
Defined.

(** ** getTask *)

Lemma find_unique (db : Table) (t : UserDB.t) :
  ids_unique db -> In t db ->
  find (filter_ query_all (id_is (UserDB.id t))) db = Some t.
Proof.
  unfold ids_unique. induction db as [|x db IH]; simpl; [contradiction|].
  intros Hnd Hin. inversion Hnd as [|y l Hnot Hrest]; subst.
  rewrite by_id_eqb. destruct Hin as [E|Hin].
  - subst x. rewrite Z.eqb_refl. reflexivity.
  - destruct (Z.eqb_spec (UserDB.id x) (UserDB.id t)) as [E|E].
    + exfalso. apply Hnot. rewrite E. apply in_map. exact Hin.
    + apply IH; assumption.
Qed.

(** X6. getTask answers a stored row carrying the requested id, or 404
    exactly when no row carries it, and never writes.  When the ids of
    the table are pairwise distinct, every stored row is the answer of
    getTask for its own id. *)
Theorem get_task_finds_row (task_id : Z) (clk : Clock) (db : Table) :
  (forall t db', get_task task_id clk db = (Return t, db') ->
                 db' = db /\ In t db /\ UserDB.id t = task_id)
  /\ (forall e db', get_task task_id clk db = (Raise e, db') ->
                    db' = db /\ e = not_found
                    /\ forall r, In r db -> UserDB.id r <> task_id)
  /\ (forall t, ids_unique db -> In t db ->
                get_task (UserDB.id t) clk db = (Return t, db)).
Proof.
  split; [|split].
  - intros t db'. rewrite get_task_unfold.
    destruct (find (filter_ query_all (id_is task_id)) db) as [x|] eqn:Hf;
      intros H; inversion H; subst.
    destruct (find_id _ _ _ Hf) as [Hid Hin]. repeat split; assumption.
  - intros e db'. rewrite get_task_unfold.
    destruct (find (filter_ query_all (id_is task_id)) db) as [x|] eqn:Hf;
      intros H; inversion H; subst.
    split; [reflexivity|]. split; [reflexivity|].
    apply find_none_ids. exact Hf.
  - intros t Hu Hin. rewrite get_task_unfold, (find_unique db t Hu Hin).
    reflexivity.
Qed.

Lemma get_task_finds_row_witness :
  get_task 3 Sample.clk Scenario.three
  = (Return (Scenario.low_row 3 "completed"), Scenario.three)
  /\ forall r, In r Scenario.three -> UserDB.id r <> 9%Z.
Proof.
  destruct (get_task_finds_row 3 Sample.clk Scenario.three) as [_ [_ Hu]].
  destruct (get_task_finds_row 9 Sample.clk Scenario.three) as [_ [Hn _]].
  split.
  - apply (Hu (Scenario.low_row 3 "completed")).
    + unfold ids_unique. simpl.
      repeat constructor; simpl; intros H;
        repeat (destruct H as [H|H]; [discriminate|]); exact H.
    + simpl. right. right. left. reflexivity.
  - apply (Hn not_found Scenario.three). reflexivity.
Defined.

(** ** Stored priorities and statuses stay in their enumerations *)

Lemma to_row_columns (i : Z) (u : CreateTask.t) (r : UserDB.t) :
  to_row i u = Some r ->
  is_in (CreateTask.priority u) priorities = true ->
  is_in (CreateTask.status u) statuses = true ->
  is_in (Some (UserDB.priority r)) priorities = true
  /\ is_in (Some (UserDB.status r)) statuses = true.
Proof.
  unfold to_row. destruct (CreateTask.priority u); [|discriminate].
  destruct (CreateTask.status u); [|discriminate].
  intros H Hp Hs. inversion H. simpl. split; assumption.
Qed.

Lemma columns_stored_under (i : Z) (r : UserDB.t) (db : Table) :
  is_in (Some (UserDB.priority r)) priorities = true
  /\ is_in (Some (UserDB.status r)) statuses = true ->
  columns_in_enum db -> columns_in_enum (stored_under i r db).
Proof.
  intros Hr H. unfold columns_in_enum, stored_under in *.
  induction H as [|x db Hx _ IH]; simpl; constructor; [|exact IH].
  destruct (id_is i x); assumption.
Qed.

Lemma columns_filter (c : UserDB.t -> bool) (db : Table) :
  columns_in_enum db -> columns_in_enum (filter c db).
Proof.
  unfold columns_in_enum. intros H. apply Forall_forall. intros r Hin.
  apply filter_In in Hin. destruct Hin as [Hin _].
  revert r Hin. apply Forall_forall. exact H.
Qed.

Lemma update_task_accepted_columns (task_id : Z) (inp : CreateTask.t)
  (clk : Clock) (db db' : Table) (r : UserDB.t) :
  update_task task_id inp clk db = (Return r, db') ->
  is_in (Some (UserDB.priority r)) priorities = true
  /\ is_in (Some (UserDB.status r)) statuses = true.
Proof.
  intros H. split.
  - rewrite update_task_unfold in H.
    destruct (find (filter_ query_all (id_is task_id)) db) as [t|];
      [|discriminate].
    destruct (CreateTask.due_date inp <=? today clk)%Z; [discriminate|].
    destruct (is_in (CreateTask.priority inp) priorities) eqn:Hp;
      [|discriminate].
    cbn [negb] in H.
    destruct (eq_str (CreateTask.priority inp) "high"
              && (5 <=? high_pending_count db)%nat); [discriminate|].
    rewrite transition_by_table in H.
    destruct (transition_table (parse_status (UserDB.status t))
                (parse_requested (CreateTask.status inp)));
      [| |discriminate];
      unfold assign_commit, to_row in H; simpl in H;
      destruct (CreateTask.priority inp); try discriminate;
      destruct (CreateTask.status inp); try discriminate;
      inversion H; simpl; exact Hp.
  - destruct (updated_row_not_pending task_id inp clk db db' r H)
      as [_ [Hs|Hs]]; rewrite Hs; reflexivity.
Qed.

Lemma serve_keeps_columns (rq : Request) (clk : Clock) (db : Table) :
  columns_in_enum db -> columns_in_enum (serve rq clk db).
Proof.
  intros Hinv. destruct rq as [task|p s o pg lm| |i|i u|i]; cbn [serve].
  - destruct (create_task_cases task clk db)
      as [[e He]|[r [Hr [Hp [Hs He]]]]]; rewrite He; simpl; [exact Hinv|].
    unfold columns_in_enum. apply Forall_app. split; [exact Hinv|].
    constructor; [|constructor].
    apply (to_row_columns _ _ _ Hr Hp Hs).
  - rewrite read_only_get_tasks. exact Hinv.
  - rewrite read_only_get_task_stats. exact Hinv.
  - rewrite read_only_get_task. exact Hinv.
  - destruct (update_task i u clk db) as [[r|e] db'] eqn:Hu; simpl.
    + pose proof (update_task_accepted_columns i u clk db db' r Hu) as Hc.
      apply updated_row_not_pending in Hu. destruct Hu as [Hdb _]. subst db'.
      apply columns_stored_under; assumption.
    + rewrite (update_task_raise_unchanged i u clk db db' e Hu). exact Hinv.
  - rewrite delete_task_unfold.
    destruct (find (filter_ query_all (id_is i)) db); simpl; [|exact Hinv].
    apply columns_filter. exact Hinv.
Qed.

Lemma columns_statuses (db : Table) : columns_in_enum db -> statuses_in_enum db.
Proof.
  unfold columns_in_enum, statuses_in_enum. intros H.
  eapply Forall_impl; [|exact H]. intros r [_ Hs]. exact Hs.
Qed.

(** X7. Only priorities low, medium, high and statuses pending,
    in_progress, completed are ever stored: each route keeps every
    stored priority and status inside its enumeration.  So on any table
    reached from the empty one by a sequence of requests, the pending,
    in_progress and completed counts of getStats add up to its total. *)
Theorem stored_columns_stay_in_enum :
  (forall rq clk db, columns_in_enum db -> columns_in_enum (serve rq clk db))
  /\ (forall rqs db, columns_in_enum db -> columns_in_enum (serve_all rqs db))
  /\ (forall rqs clk,
         exists s,
           get_task_stats clk (serve_all rqs []) = (Return s, serve_all rqs [])
           /\ pending s + in_progress s + completed s = total s).
Proof.
  assert (Hall : forall rqs db,
             columns_in_enum db -> columns_in_enum (serve_all rqs db)).
  { induction rqs as [|[clk rq] rqs IH]; intros db Hinv; simpl.
    - exact Hinv.
    - apply IH. apply serve_keeps_columns. exact Hinv. }
  split; [exact serve_keeps_columns|]. split; [exact Hall|].
  intros rqs clk. eexists. split; [reflexivity|]. simpl.
  rewrite !or_0_id. apply count_by_status. apply columns_statuses.
  apply Hall. constructor.
Qed.

Lemma stored_columns_stay_in_enum_witness :
  columns_in_enum (serve (PUT_task 1 Scenario.start_low) Sample.clk
                     Scenario.three).
Proof.
  apply (proj1 stored_columns_stay_in_enum).
  unfold columns_in_enum. repeat constructor.
Defined.

(** ** The order of the checks of updateTask *)

(** X8. updateTask looks the target up before it checks anything:
    when no row carries the id the answer is 404 whatever the body is.
    When the row exists, the first failing check of the ordered list due
    date, priority, quota decides the failure, before the status
    transition is looked at; only when all three hold does the
    transition table decide between a rejection and a stored row. *)
Theorem update_task_first_failing_check (task_id : Z) (inp : CreateTask.t)
  (clk : Clock) (db : Table) :
  ((forall r, In r db -> UserDB.id r <> task_id) ->
   update_task task_id inp clk db = (Raise not_found, db))
  /\ (forall t,
         get_task task_id clk db = (Return t, db) ->
         match first_failing (update_task_checks inp clk db) with
         | Some reason => update_task task_id inp clk db = (Raise reason, db)
         | None =>
             match transition_table (parse_status (UserDB.status t))
                     (parse_requested (CreateTask.status inp)) with
             | Rejected reason =>
                 update_task task_id inp clk db = (Raise reason, db)
             | _ =>
                 exists r, update_task task_id inp clk db
                           = (Return r, stored_under task_id r db)
             end
         end).
Proof.
  split.
  - intros H. rewrite update_task_unfold.
    rewrite (proj2 (find_none_ids task_id db) H). reflexivity.
  - intros t Hg. apply get_task_first in Hg.
    destruct (find_id _ _ _ Hg) as [Hid _].
    rewrite update_task_unfold, Hg. unfold update_task_checks.
    rewrite Zleb_ltb_neg, leb_ltb_neg. cbn [first_failing].
    destruct (today clk <? CreateTask.due_date inp)%Z; simpl; [|reflexivity].
    destruct (is_in (CreateTask.priority inp) priorities) eqn:Hp; simpl;
      [|reflexivity].
    apply is_in_Some in Hp. destruct Hp as [p [Hp _]].
    assert (Hrow : forall u,
               CreateTask.priority u = CreateTask.priority inp ->
               CreateTask.status u = CreateTask.status inp ->
               parse_requested (CreateTask.status inp) <> None ->
               exists r, assign_commit t u clk db
                         = (Return r, stored_under task_id r db)).
    { intros u Hup Hus Hreq. unfold assign_commit, to_row, stored_under.
      rewrite Hup, Hus, Hp, Hid.
      destruct (CreateTask.status inp); [|exfalso; apply Hreq; reflexivity].
      eexists. reflexivity. }
    assert (Htab : match transition_table (parse_status (UserDB.status t))
                           (parse_requested (CreateTask.status inp)) with
                   | Rejected reason =>
                       match transition (UserDB.status t) inp clk db with
                       | (Return u, db') => assign_commit t u clk db'
                       | (Raise e, db') => (Raise e, db')
                       end = (Raise reason, db)
                   | _ =>
                       exists r,
                         match transition (UserDB.status t) inp clk db with
                         | (Return u, db') => assign_commit t u clk db'
                         | (Raise e, db') => (Raise e, db')
                         end = (Return r, stored_under task_id r db)
                   end).
    { rewrite transition_by_table.
      destruct (transition_table (parse_status (UserDB.status t))
                  (parse_requested (CreateTask.status inp))) eqn:E;
        [| |reflexivity];
        apply Hrow; try reflexivity; intros Hn; rewrite Hn in E;
        simpl in E; discriminate. }
    destruct (eq_str (CreateTask.priority inp) "high"); simpl.
    + destruct (high_pending_count db <? 5)%nat; simpl; [|reflexivity].
      exact Htab.
    + exact Htab.
Qed.

Lemma update_task_first_failing_check_witness :
  update_task 9 Sample.late_and_bogus Sample.clk Scenario.three
  = (Raise not_found, Scenario.three)
  /\ update_task 1 Sample.late_and_bogus Sample.clk Scenario.three
     = (Raise invalid_due_date, Scenario.three).
Proof.
  destruct (update_task_first_failing_check 9 Sample.late_and_bogus
              Sample.clk Scenario.three) as [Hn _].
  destruct (update_task_first_failing_check 1 Sample.late_and_bogus
              Sample.clk Scenario.three) as [_ Hf].
  split.
  - apply Hn. intros r Hin. simpl in Hin.
    destruct Hin as [E|[E|[E|[]]]]; subst r; simpl; lia.
  - apply (Hf (Scenario.low_row 1 "pending")). reflexivity.
Defined.

(** ** A completed task is frozen *)

Lemma completed_row_rejects (task_id : Z) (inp : CreateTask.t) (clk : Clock)
  (db : Table) (t : UserDB.t) :
  find (filter_ query_all (id_is task_id)) db = Some t ->
  UserDB.status t = "completed" ->
  exists detail,
    update_task task_id inp clk db = (Raise (HTTPException 400 detail), db).
Proof.
  intros Hf Hs. rewrite update_task_unfold, Hf.
  destruct (CreateTask.due_date inp <=? today clk)%Z; [eexists; reflexivity|].
  destruct (negb (is_in (CreateTask.priority inp) priorities));
    [eexists; reflexivity|].
  destruct (eq_str (CreateTask.priority inp) "high"
            && (5 <=? high_pending_count db)%nat); [eexists; reflexivity|].
  rewrite transition_by_table, Hs. simpl.
  destruct (parse_requested (CreateTask.status inp)) as [[| |]|]; simpl;
    eexists; reflexivity.
Qed.

Lemma serve_keeps_completed (rq : Request) (clk : Clock) (db : Table) (i : Z)
  (t : UserDB.t) :
  find (filter_ query_all (id_is i)) db = Some t ->
  UserDB.status t = "completed" ->
  rq <> DELETE_task i ->
  find (filter_ query_all (id_is i)) (serve rq clk db) = Some t.
Proof.
  intros Hf Hs Hrq. destruct rq as [task|p s o pg lm| |j|j u|j]; cbn [serve].
  - destruct (create_task_cases task clk db)
      as [[e He]|[r [_ [_ [_ He]]]]]; rewrite He; simpl; [exact Hf|].
    rewrite find_appended, Hf. reflexivity.
  - rewrite read_only_get_tasks. exact Hf.
  - rewrite read_only_get_task_stats. exact Hf.
  - rewrite read_only_get_task. exact Hf.
  - destruct (Z.eq_dec j i) as [E|E].
    + subst j. destruct (completed_row_rejects i u clk db t Hf Hs) as [d Hd].
      rewrite Hd. exact Hf.
    + destruct (update_task_cases j u clk db)
        as [[e He]|[t' [u' [r [_ [_ [Hr He]]]]]]]; rewrite He; simpl;
        [exact Hf|].
      rewrite (find_other_stored j i r db (to_row_id _ _ _ Hr) E). exact Hf.
  - assert (E : j <> i) by (intros E; apply Hrq; rewrite E; reflexivity).
    rewrite delete_task_unfold.
    destruct (find (filter_ query_all (id_is j)) db); simpl; [|exact Hf].
    rewrite (find_other_deleted j i db E). exact Hf.
Qed.

(** X9. A completed task is frozen: every update of it is rejected
    with a 400 and writes nothing, whatever the body is; and through any
    sequence of requests that does not delete it, getTask keeps
    answering the same row for its id. *)
Theorem completed_task_is_frozen (task_id : Z) (clk : Clock) (db : Table)
  (t : UserDB.t)
  (Hexists : get_task task_id clk db = (Return t, db))
  (Hdone : UserDB.status t = "completed") :
  (forall inp clk',
      exists detail,
        update_task task_id inp clk' db
        = (Raise (HTTPException 400 detail), db))
  /\ (forall rqs clk',
         Forall (fun cr => snd cr <> DELETE_task task_id) rqs ->
         fst (get_task task_id clk' (serve_all rqs db)) = Return t).
Proof.
  apply get_task_first in Hexists. split.
  - intros inp clk'. apply (completed_row_rejects _ _ _ _ t); assumption.
  - intros rqs clk' Hrqs.
    assert (Hf : find (filter_ query_all (id_is task_id)) (serve_all rqs db)
                 = Some t).
    { revert db Hexists. induction Hrqs as [|[c rq] rqs Hrq _ IH];
        intros db Hf; simpl; [exact Hf|].
      apply IH. apply serve_keeps_completed; assumption. }
    rewrite get_task_unfold, Hf. reflexivity.
Qed.

Lemma completed_task_is_frozen_witness :
  (exists detail,
      update_task 3 Scenario.start_low Sample.clk Scenario.three
      = (Raise (HTTPException 400 detail), Scenario.three))
  /\ fst (get_task 3 Sample.clk
            (serve_all [(Sample.clk, PUT_task 3 Scenario.finish_low);
                        (Sample.clk, DELETE_task 1);
                        (Sample.clk, POST_tasks Scenario.new_low)]
               Scenario.three))
     = Return (Scenario.low_row 3 "completed").
Proof.
  destruct (completed_task_is_frozen 3 Sample.clk Scenario.three
              (Scenario.low_row 3 "completed") eq_refl eq_refl) as [Hu Hs].
  split.
  - apply Hu.
  - apply Hs. repeat constructor; simpl; discriminate.
Defined.

(** ** Pages of listTasks *)

Lemma listing_window (priority status : option string) (overdue : option bool)
  (page limit : Z) (clk : Clock) (db : Table) :
  (1 <= page)%Z -> (1 <= limit <= 100)%Z ->
  listing priority status overdue page limit clk db
  = window page limit
      (filter (supplied_filters_hold priority status overdue (today clk)) db).
Proof.
  intros Hp Hl. unfold listing. rewrite get_tasks_unfold.
  destruct (Z.leb_spec 1 page); [|lia].
  destruct (Z.leb_spec 1 limit); [|lia].
  destruct (Z.leb_spec limit 100); [|lia]. reflexivity.
Qed.

Lemma firstn_then_next {A : Type} (a b : nat) (l : list A) :
  (firstn a l ++ firstn b (skipn a l))%list = firstn (a + b) l.
Proof.
  revert l. induction a as [|a IH]; intros l; simpl; [reflexivity|].
  destruct l as [|x l]; simpl.
  - rewrite firstn_nil. reflexivity.
  - rewrite IH. reflexivity.
Qed.

Lemma window_nth_page {A : Type} (n : nat) (limit : Z) (l : list A) :
  (1 <= limit)%Z ->
  window (Z.of_nat (S n)) limit l
  = firstn (Z.to_nat limit) (skipn (n * Z.to_nat limit) l).
Proof.
  intros Hl. unfold window. f_equal. f_equal.
  replace (Z.of_nat (S n) - 1)%Z with (Z.of_nat n) by lia.
  rewrite Z2Nat.inj_mul by lia. rewrite Nat2Z.id. reflexivity.
Qed.

(** X10. For a limit between 1 and 100, a page of listTasks never holds
    more than limit rows; reading pages 1 to n one after the other on
    the same table gives the first n * limit matching rows in table
    order, none skipped and none repeated; and a page that starts past
    the last matching row is empty. *)
Theorem get_tasks_pages (priority status : option string)
  (overdue : option bool) (limit : Z) (clk : Clock) (db : Table) :
  (1 <= limit <= 100)%Z ->
  (forall page,
      List.length (listing priority status overdue page limit clk db)
      <= Z.to_nat limit)
  /\ (forall n,
         flat_map
           (fun k => listing priority status overdue (Z.of_nat k) limit clk db)
           (seq 1 n)
         = firstn (n * Z.to_nat limit)
             (filter (supplied_filters_hold priority status overdue
                        (today clk)) db))
  /\ (forall n,
         List.length
           (filter (supplied_filters_hold priority status overdue (today clk))
              db) <= n * Z.to_nat limit ->
         listing priority status overdue (Z.of_nat (S n)) limit clk db = []).
Proof.
  intros Hl. split; [|split].
  - intros page. unfold listing. rewrite get_tasks_unfold.
    destruct (1 <=? page)%Z; [|simpl; lia].
    destruct ((1 <=? limit)%Z && (limit <=? 100)%Z); [|simpl; lia].
    simpl. unfold window. apply firstn_le_length.
  - induction n as [|n IH]; [reflexivity|].
    rewrite seq_S, flat_map_app, IH. cbn [flat_map]. rewrite app_nil_r.
    change (1 + n) with (S n).
    rewrite listing_window by lia.
    rewrite window_nth_page by lia.
    rewrite firstn_then_next. f_equal. apply Nat.add_comm.
  - intros n Hn. rewrite listing_window by lia.
    rewrite window_nth_page by lia.
    rewrite (skipn_all2 _ Hn). apply firstn_nil.
Qed.

Lemma get_tasks_pages_witness :
  List.length (listing None None None 1 2 Sample.clk Sample.five) <= 2
  /\ listing None None None 4 2 Sample.clk Sample.five = [].
Proof.
  assert (Hl : (1 <= 2 <= 100)%Z) by lia.
  destruct (get_tasks_pages None None None 2 Sample.clk Sample.five Hl)
    as [Hle [_ Hpast]].
  split.
  - apply (Hle 1%Z).
  - apply (Hpast 3). simpl. lia.
Defined.

Lemma filter_all_rows (q : Query) (db : Table) :
  (forall r, q r = true) -> filter q db = db.
Proof.
  intros H. induction db as [|x db IH]; simpl; [reflexivity|].
  rewrite H, IH. reflexivity.
Qed.

(** X11. A filter value that is empty or false does not filter: an
    empty priority or status text and overdue = false are handled as if
    the parameter were absent, so such a request lists rows of every
    priority and status instead of none. *)
Theorem get_tasks_ignores_empty_filters (priority status : option string)
  (overdue : option bool) (page limit : option Z) (clk : Clock) (db : Table) :
  get_tasks (Some EmptyString) status overdue page limit clk db
  = get_tasks None status overdue page limit clk db
  /\ get_tasks priority (Some EmptyString) overdue page limit clk db
     = get_tasks priority None overdue page limit clk db
  /\ get_tasks priority status (Some false) page limit clk db
     = get_tasks priority status None page limit clk db
  /\ get_tasks (Some EmptyString) (Some EmptyString) (Some false) None None
       clk db
     = (Return (firstn 10 db), db).
Proof.
  split; [reflexivity|]. split; [reflexivity|]. split; [reflexivity|].
  change (get_tasks (Some EmptyString) (Some EmptyString) (Some false)
            None None clk db)
    with (get_tasks (Some EmptyString) (Some EmptyString) (Some false)
            (Some 1%Z) (Some 10%Z) clk db).
  rewrite get_tasks_unfold. cbn [Z.leb Z.compare Pos.compare
    Pos.compare_cont andb].
  unfold window. rewrite filter_all_rows by (intros r; reflexivity).
  reflexivity.
Qed.

(** ** The counts of getStats *)

Lemma count_le_total (q : Query) (db : Table) :
  List.length (filter q db) <= List.length db.
Proof.
  induction db as [|x db IH]; simpl; [lia|]. destruct (q x); simpl; lia.
Qed.

Lemma count_all (db : Table) :
  List.length (filter query_all db) = List.length db.
Proof.
  induction db as [|x db IH]; simpl; [reflexivity|]. rewrite IH. reflexivity.
Qed.

Lemma count_implies_le (q q' : Query) (db : Table) :
  (forall r, q r = true -> q' r = true) ->
  List.length (filter q db) <= List.length (filter q' db).
Proof.
  intros H. induction db as [|x db IH]; simpl; [lia|].
  destruct (q x) eqn:E.
  - rewrite (H x E). simpl. lia.
  - destruct (q' x); simpl; lia.
Qed.

Lemma count_disjoint_le (q q' : Query) (db : Table) :
  (forall r, q r = true -> q' r = false) ->
  List.length (filter q db) + List.length (filter q' db) <= List.length db.
Proof.
  intros H. induction db as [|x db IH]; simpl; [lia|].
  destruct (q x) eqn:E.
  - rewrite (H x E). simpl. lia.
  - destruct (q' x); simpl; lia.
Qed.

Lemma count_by_status_le (db : Table) :
  List.length (filter (filter_ query_all (status_is "pending")) db)
  + List.length (filter (filter_ query_all (status_is "in_progress")) db)
  + List.length (filter (filter_ query_all (status_is "completed")) db)
  <= List.length db.
Proof.
  induction db as [|x db IH]; simpl; [lia|].
  unfold filter_, query_all, status_is in *.
  destruct x as [i ti de pr st dd ca]. simpl in *.
  status_cases st; simpl in *; lia.
Qed.

(** X12. On every table, whatever texts its status column holds, the
    counts of getStats are consistent: total is the number of rows,
    high_priority_pending is at most pending, the three status counts
    together are at most total, and overdue and completed together are
    at most total (an overdue task is never a completed one). *)
Theorem get_task_stats_bounds (clk : Clock) (db : Table) :
  exists s,
    get_task_stats clk db = (Return s, db)
    /\ total s = List.length db
    /\ high_priority_pending s <= pending s
    /\ pending s + in_progress s + completed s <= total s
    /\ overdue s + completed s <= total s.
Proof.
  eexists. split; [reflexivity|]. simpl. rewrite !or_0_id, count_all.
  split; [reflexivity|]. split; [|split].
  - apply count_implies_le. intros r.
    unfold high_pending, filter_, query_all, priority_is, status_is. simpl.
    intros H. apply andb_true_iff in H. apply H.
  - apply count_by_status_le.
  - apply count_disjoint_le. intros r.
    unfold overdue_on, filter_, query_all, due_before, status_is_not,
      status_is. simpl.
    intros H. apply andb_true_iff in H. destruct H as [_ H].
    apply negb_true_iff in H. exact H.
Qed.

(** ** An explicit null is not a default *)

Lemma model_validate_fields (b : CreateTask.body) (task : CreateTask.t) :
  CreateTask.model_validate b = Some task ->
  CreateTask.priority task
  = CreateTask.optional (Some "high") (CreateTask.b_priority b)
  /\ CreateTask.status task
     = CreateTask.optional (Some "pending") (CreateTask.b_status b).
Proof.
  unfold CreateTask.model_validate.
  destruct (CreateTask.required (CreateTask.b_title b)); [|discriminate].
  destruct (CreateTask.required (CreateTask.b_due_date b)); [|discriminate].
  intros H. inversion H. simpl. split; reflexivity.
Qed.

(** X13. A body that gives priority or status as an explicit null gets
    no default.  With a valid due date, a null priority is rejected as
    an invalid priority by create and by the update of an existing task;
    a null status, once the priority and quota checks pass, is rejected
    as an invalid status by both. *)
Theorem null_priority_or_status_rejected (b : CreateTask.body)
  (task : CreateTask.t) (task_id : Z) (clk : Clock) (db : Table)
  (Hvalid : CreateTask.model_validate b = Some task)
  (Hdue : (today clk < CreateTask.due_date task)%Z) :
  (CreateTask.b_priority b = CreateTask.Null ->
   post_tasks b clk db = (Raise invalid_priority, db)
   /\ (forall t, get_task task_id clk db = (Return t, db) ->
                 put_tasks task_id b clk db = (Raise invalid_priority, db)))
  /\ (CreateTask.b_status b = CreateTask.Null ->
      is_in (CreateTask.priority task) priorities = true ->
      (CreateTask.priority task = Some "high" -> high_pending_count db < 5) ->
      post_tasks b clk db = (Raise invalid_status, db)
      /\ (forall t, get_task task_id clk db = (Return t, db) ->
                    put_tasks task_id b clk db = (Raise invalid_status, db))).
Proof.
  destruct (model_validate_fields b task Hvalid) as [Hp Hs].
  unfold post_tasks, put_tasks. rewrite Hvalid.
  split.
  - intros Hnull. rewrite Hnull in Hp. simpl in Hp. split.
    + rewrite create_task_unfold, Hp.
      destruct (Z.leb_spec (CreateTask.due_date task) (today clk)); [lia|].
      reflexivity.
    + intros t Hg. apply get_task_first in Hg.
      rewrite update_task_unfold, Hg, Hp.
      destruct (Z.leb_spec (CreateTask.due_date task) (today clk)); [lia|].
      reflexivity.
  - intros Hnull Hprio Hquota. rewrite Hnull in Hs. simpl in Hs.
    assert (Hq : eq_str (CreateTask.priority task) "high"
                 && (5 <=? high_pending_count db)%nat = false).
    { destruct (eq_str (CreateTask.priority task) "high") eqn:Hh;
        [|reflexivity].
      destruct (CreateTask.priority task) as [p|] eqn:E; [|discriminate].
      simpl in Hh. apply String.eqb_eq in Hh. subst p.
      specialize (Hquota eq_refl). cbn [andb]. apply Nat.leb_gt. exact Hquota. }
    split.
    + rewrite create_task_unfold, Hprio, Hq, Hs.
      destruct (Z.leb_spec (CreateTask.due_date task) (today clk)); [lia|].
      reflexivity.
    + intros t Hg. apply get_task_first in Hg.
      rewrite update_task_unfold, Hg, Hprio, Hq, transition_by_table, Hs.
      destruct (Z.leb_spec (CreateTask.due_date task) (today clk)); [lia|].
      reflexivity.
Qed.

Lemma null_priority_or_status_rejected_witness :
  post_tasks Scenario.null_priority_body Sample.clk Scenario.three
  = (Raise invalid_priority, Scenario.three)
  /\ put_tasks 1 Scenario.null_status_body Sample.clk Scenario.three
     = (Raise invalid_status, Scenario.three).
Proof.
  assert (Hd : (today Sample.clk < 10)%Z) by (simpl; lia).
  destruct (null_priority_or_status_rejected Scenario.null_priority_body
              (CreateTask.mk "x" None None (Some "in_progress") 10 None)
              1 Sample.clk Scenario.three eq_refl Hd) as [Hp _].
  destruct (null_priority_or_status_rejected Scenario.null_status_body
              (CreateTask.mk "x" None (Some "low") None 10 None)
              1 Sample.clk Scenario.three eq_refl Hd) as [_ Hs].
  split.
  - apply Hp. reflexivity.
  - destruct (Hs eq_refl eq_refl) as [_ Hput].
    + intros H. discriminate.
    + apply (Hput (Scenario.low_row 1 "pending")). reflexivity.
Defined.

(** ** The size of the table *)

Lemma filter_keeps_rows (q : UserDB.t -> bool) (db : Table) :
  (forall r, In r db -> q r = true) -> filter q db = db.
Proof.
  intros H. induction db as [|x db IH]; simpl; [reflexivity|].
  rewrite (H x) by (left; reflexivity). rewrite IH; [reflexivity|].
  intros r Hin. apply H. right. exact Hin.
Qed.

Lemma length_stored_under (i : Z) (r : UserDB.t) (db : Table) :
  List.length (stored_under i r db) = List.length db.
Proof. unfold stored_under. apply length_map. Qed.

Lemma length_deleted (i : Z) (t : UserDB.t) (db : Table) :
  ids_unique db ->
  find (filter_ query_all (id_is i)) db = Some t ->
  S (List.length (filter (fun x => negb (id_is i x)) db)) = List.length db.
Proof.
  unfold ids_unique. induction db as [|x db IH]; simpl; [discriminate|].
  intros Hnd. inversion Hnd as [|y l Hnot Hrest]; subst.
  rewrite by_id_eqb, id_is_eqb.
  destruct (Z.eqb_spec (UserDB.id x) i) as [E|E]; simpl.
  - intros _. rewrite filter_keeps_rows; [reflexivity|].
    intros r Hin. rewrite id_is_eqb. apply negb_true_iff, Z.eqb_neq.
    intros Hr. apply Hnot. rewrite E, <- Hr. apply in_map. exact Hin.
  - intros Hf. rewrite (IH Hrest Hf). reflexivity.
Qed.

(** X14. An accepted createTask adds exactly one row, an accepted
    updateTask leaves the number of rows as it is, and, when the ids of
    the table are pairwise distinct, an accepted deleteTask removes
    exactly one row. *)
Theorem table_size_effects (clk : Clock) (db : Table) :
  (forall task r db',
      create_task task clk db = (Return r, db') ->
      List.length db' = S (List.length db))
  /\ (forall i inp r db',
         update_task i inp clk db = (Return r, db') ->
         List.length db' = List.length db)
  /\ (forall i db',
         ids_unique db ->
         delete_task i clk db = (Return tt, db') ->
         S (List.length db') = List.length db).
Proof.
  split; [|split].
  - intros task r db' H.
    destruct (create_task_cases task clk db)
      as [[e He]|[r' [_ [_ [_ He]]]]]; rewrite He in H; [discriminate|].
    inversion H. rewrite length_app. simpl. lia.
  - intros i inp r db' H.
    destruct (update_task_cases i inp clk db)
      as [[e He]|[t [u [r' [_ [_ [_ He]]]]]]]; rewrite He in H;
      [discriminate|].
    inversion H. apply length_stored_under.
  - intros i db' Hu. rewrite delete_task_unfold.
    destruct (find (filter_ query_all (id_is i)) db) as [t|] eqn:Hf;
      [|discriminate].
    intros H. inversion H. apply (length_deleted i t db Hu Hf).
Qed.

Lemma table_size_effects_witness :
  List.length (snd (create_task Scenario.new_low Sample.clk Scenario.three)) = 4
  /\ List.length
       (snd (update_task 1 Scenario.start_low Sample.clk Scenario.three)) = 3
  /\ S (List.length (snd (delete_task 2 Sample.clk Scenario.three))) = 3.
Proof.
  destruct (table_size_effects Sample.clk Scenario.three) as [Hc [Hu Hd]].
  split; [|split].
  - apply (Hc Scenario.new_low
             (UserDB.mk 4 "n" None "low" "pending" 10 None)). reflexivity.
  - apply (Hu 1%Z Scenario.start_low
             (UserDB.mk 1 "n" None "low" "in_progress" 10 None)). reflexivity.
  - apply (Hd 2%Z).
    + unfold ids_unique. simpl.
      repeat constructor; simpl; intros H;
        repeat (destruct H as [H|H]; [discriminate|]); exact H.
    + reflexivity.
Defined.

(** ** getStats and listTasks agree *)

Lemma length_first_page {A : Type} (l : list A) :
  List.length (window 1 100 l) = Nat.min 100 (List.length l).
Proof. unfold window. simpl skipn. apply length_firstn. Qed.

(** X15. The counts of getStats are the sizes of the matching
    listings: on the same table and day, the first page of 100 of
    listTasks with overdue = true, with status pending, with priority
    high and status pending, and without filter holds as many rows as
    the overdue, pending, high_priority_pending and total counts say, up
    to the page size of 100. *)
Theorem get_task_stats_match_listing (clk : Clock) (db : Table) :
  exists s,
    get_task_stats clk db = (Return s, db)
    /\ List.length (listing None None (Some true) 1 100 clk db)
       = Nat.min 100 (overdue s)
    /\ List.length (listing None (Some "pending") None 1 100 clk db)
       = Nat.min 100 (pending s)
    /\ List.length (listing (Some "high") (Some "pending") None 1 100 clk db)
       = Nat.min 100 (high_priority_pending s)
    /\ List.length (listing None None None 1 100 clk db)
       = Nat.min 100 (total s).
Proof.
  eexists. split; [reflexivity|].
  cbn [overdue pending high_priority_pending total]. rewrite !or_0_id.
  rewrite !listing_window by lia. rewrite !length_first_page.
  split; [|split; [|split]]; f_equal; f_equal; try reflexivity;
    apply filter_ext; intros r.
  - change (true && String.eqb "pending" (UserDB.status r) && true
            = true && String.eqb (UserDB.status r) "pending").
    cbn [andb]. rewrite andb_true_r. apply String.eqb_sym.
  - change (String.eqb "high" (UserDB.priority r)
            && String.eqb "pending" (UserDB.status r) && true
            = true && String.eqb (UserDB.priority r) "high"
              && String.eqb (UserDB.status r) "pending").
    cbn [andb]. rewrite andb_true_r.
    rewrite (String.eqb_sym "high"), (String.eqb_sym "pending"). reflexivity.
Qed.

(** ** From started to completed to frozen *)

(** X16. Updates compose along the life of a task: on the table an
    accepted update left with the task in_progress, a further update of
    the same id that requests completed and passes the field checks is
    accepted; it stores the current timestamp as completed_at; and on
    the table it leaves, every later update of that id is rejected and
    writes nothing. *)
Theorem task_lifecycle (task_id : Z) (inp1 inp2 : CreateTask.t)
  (clk1 clk2 : Clock) (db db1 : Table) (r1 : UserDB.t)
  (Hfirst : update_task task_id inp1 clk1 db = (Return r1, db1))
  (Hstarted : UserDB.status r1 = "in_progress")
  (Hreq : CreateTask.status inp2 = Some "completed")
  (Hdue : (today clk2 < CreateTask.due_date inp2)%Z)
  (Hprio : is_in (CreateTask.priority inp2) priorities = true)
  (Hquota : CreateTask.priority inp2 = Some "high" ->
            high_pending_count db1 < 5) :
  exists r2,
    update_task task_id inp2 clk2 db1 = (Return r2, stored_under task_id r2 db1)
    /\ UserDB.status r2 = "completed"
    /\ UserDB.completed_at r2 = Some (now clk2)
    /\ forall inp3 clk3,
         exists e,
           update_task task_id inp3 clk3 (stored_under task_id r2 db1)
           = (Raise e, stored_under task_id r2 db1).
Proof.
  assert (Hf1 : find (filter_ query_all (id_is task_id)) db1 = Some r1).
  { destruct (update_task_cases task_id inp1 clk1 db)
      as [[e He]|[t [u [r' [Hf [_ [Hr He]]]]]]]; rewrite He in Hfirst;
      [discriminate|].
    inversion Hfirst; subst r' db1.
    apply (find_stored task_id r1 t db (to_row_id _ _ _ Hr) Hf). }
  destruct (find_id _ _ _ Hf1) as [Hid1 _].
  assert (Hq : eq_str (CreateTask.priority inp2) "high"
               && (5 <=? high_pending_count db1)%nat = false).
  { destruct (eq_str (CreateTask.priority inp2) "high") eqn:Hh; [|reflexivity].
    destruct (CreateTask.priority inp2) as [p|] eqn:E; [|discriminate].
    simpl in Hh. apply String.eqb_eq in Hh. subst p.
    specialize (Hquota eq_refl). cbn [andb]. apply Nat.leb_gt. exact Hquota. }
  apply is_in_Some in Hprio as Hp. destruct Hp as [p [Hp _]].
  exists (UserDB.mk task_id (CreateTask.title inp2)
            (CreateTask.description inp2) p "completed"
            (CreateTask.due_date inp2) (Some (now clk2))).
  split; [|split; [reflexivity|split; [reflexivity|]]].
  - rewrite update_task_unfold, Hf1, Hprio, Hq, transition_by_table.
    rewrite Hstarted, Hreq.
    destruct (Z.leb_spec (CreateTask.due_date inp2) (today clk2)); [lia|].
    simpl. unfold assign_commit, to_row, stored_under. simpl.
    rewrite Hp, Hreq, Hid1. reflexivity.
  - intros inp3 clk3.
    destruct (completed_row_rejects task_id inp3 clk3
                (stored_under task_id
                   (UserDB.mk task_id (CreateTask.title inp2)
                      (CreateTask.description inp2) p "completed"
                      (CreateTask.due_date inp2) (Some (now clk2))) db1)
                (UserDB.mk task_id (CreateTask.title inp2)
                   (CreateTask.description inp2) p "completed"
                   (CreateTask.due_date inp2) (Some (now clk2))))
      as [d Hd].
    + apply (find_stored task_id _ r1 db1); [reflexivity|exact Hf1].
    + reflexivity.
    + eexists. exact Hd.
Qed.

Lemma task_lifecycle_witness :
  exists r2,
    update_task 1 Scenario.finish_low Sample.clk
      (stored_under 1 (UserDB.mk 1 "n" None "low" "in_progress" 10 None)
         Scenario.three)
    = (Return r2,
       stored_under 1 r2
         (stored_under 1 (UserDB.mk 1 "n" None "low" "in_progress" 10 None)
            Scenario.three))
    /\ UserDB.completed_at r2 = Some 77%Z.
Proof.
  assert (Hd : (today Sample.clk < CreateTask.due_date Scenario.finish_low)%Z)
    by (simpl; lia).
  assert (Hq : CreateTask.priority Scenario.finish_low = Some "high" ->
               high_pending_count
                 (stored_under 1
                    (UserDB.mk 1 "n" None "low" "in_progress" 10 None)
                    Scenario.three) < 5)
    by (intros H; discriminate).
  destruct (task_lifecycle 1 Scenario.start_low Scenario.finish_low
              Sample.clk Sample.clk Scenario.three
              (stored_under 1
                 (UserDB.mk 1 "n" None "low" "in_progress" 10 None)
                 Scenario.three)
              (UserDB.mk 1 "n" None "low" "in_progress" 10 None)
              eq_refl eq_refl eq_refl Hd eq_refl Hq)
    as [r2 [H2 [_ [Hc _]]]].
  exists r2. split; [exact H2|exact Hc].
Defined.

(** ** How requests move the high-priority-pending count *)

Lemma count_stored_under_lt (q : Query) (i : Z) (r t : UserDB.t) (db : Table) :
  q r = false -> In t db -> UserDB.id t = i -> q t = true ->
  List.length (filter q (stored_under i r db)) < List.length (filter q db).
Proof.
  intros Hr Hin Hid Hq. unfold stored_under.
  induction db as [|x db IH]; simpl; [contradiction|].
  pose proof (count_stored_under_le q i r db Hr) as Hle.
  unfold stored_under in Hle.
  destruct Hin as [E|Hin].
  - subst x. rewrite id_is_eqb, Hid, Z.eqb_refl, Hr, Hq. simpl. lia.
  - specialize (IH Hin). destruct (id_is i x).
    + rewrite Hr. destruct (q x); simpl; lia.
    + destruct (q x); simpl; lia.
Qed.

(** X17. Only createTask can raise the number of high-priority pending
    tasks, and by one at most: every other request leaves it as it is or
    lowers it.  The quota stops priority high only: with a valid due
    date and a status of the enumeration, a task of priority low or
    medium is created however many high-priority pending tasks exist. *)
Theorem high_pending_count_moves (clk : Clock) (db : Table) :
  (forall rq, high_pending_count (serve rq clk db) <= S (high_pending_count db))
  /\ (forall rq, (forall task, rq <> POST_tasks task) ->
                 high_pending_count (serve rq clk db) <= high_pending_count db)
  /\ (forall task,
         CreateTask.priority task = Some "low"
         \/ CreateTask.priority task = Some "medium" ->
         (today clk < CreateTask.due_date task)%Z ->
         is_in (CreateTask.status task) statuses = true ->
         exists r, create_task task clk db = (Return r, (db ++ [r])%list)
                   /\ high_pending_count (db ++ [r])%list
                      = high_pending_count db).
Proof.
  assert (Hrest : forall rq, (forall task, rq <> POST_tasks task) ->
             high_pending_count (serve rq clk db) <= high_pending_count db).
  { intros rq Hrq. destruct rq as [task|p s o pg lm| |i|i u|i]; cbn [serve].
    - exfalso. apply (Hrq task). reflexivity.
    - rewrite read_only_get_tasks. lia.
    - rewrite read_only_get_task_stats. lia.
    - rewrite read_only_get_task. lia.
    - destruct (update_task i u clk db) as [[r|e] db'] eqn:Hu; simpl.
      + apply updated_row_not_pending in Hu. destruct Hu as [Hdb Hst].
        subst db'. unfold high_pending_count.
        apply count_stored_under_le.
        unfold high_pending, filter_, query_all, priority_is, status_is.
        destruct Hst as [Hst|Hst]; rewrite Hst; simpl; apply andb_false_r.
      + rewrite (update_task_raise_unchanged i u clk db db' e Hu). lia.
    - rewrite delete_task_unfold.
      destruct (find (filter_ query_all (id_is i)) db); simpl; [|lia].
      unfold high_pending_count. apply count_filter_le. }
  split; [|split; [exact Hrest|]].
  - intros rq. destruct rq as [task|p s o pg lm| |i|i u|i];
      try (etransitivity; [apply Hrest; intros task; discriminate|lia]).
    cbn [serve].
    destruct (create_task_cases task clk db)
      as [[e He]|[r [_ [_ [_ He]]]]]; rewrite He; simpl; [lia|].
    unfold high_pending_count. rewrite count_app.
    destruct (high_pending r); lia.
  - intros task Hp Hd Hs. rewrite create_task_unfold, Hs.
    destruct (Z.leb_spec (CreateTask.due_date task) (today clk)); [lia|].
    apply is_in_Some in Hs as Hs'. destruct Hs' as [st [Hst _]].
    destruct Hp as [Hp|Hp]; rewrite Hp; simpl is_in; cbn [negb];
      simpl eq_str; cbn [andb negb];
      unfold add_commit, to_row; rewrite Hp, Hst;
      (eexists; split; [reflexivity|]);
      unfold high_pending_count; rewrite count_app; simpl; lia.
Qed.

Lemma high_pending_count_moves_witness :
  high_pending_count (serve (DELETE_task 2) Sample.clk Sample.five)
  <= high_pending_count Sample.five
  /\ exists r,
       create_task Scenario.new_low Sample.clk Sample.five
       = (Return r, (Sample.five ++ [r])%list).
Proof.
  destruct (high_pending_count_moves Sample.clk Sample.five)
    as [_ [Hrest Hlow]].
  split.
  - apply Hrest. intros task. discriminate.
  - destruct (Hlow Scenario.new_low) as [r [Hr _]].
    + left. reflexivity.
    + simpl. lia.
    + reflexivity.
    + exists r. exact Hr.
Defined.

(** X18. A way out of a full quota: a high-priority pending task can be
    started by an update that lowers its priority to low or medium, even
    when 5 or more high-priority pending tasks exist (the quota check is
    skipped for these priorities), and the table it leaves has fewer
    high-priority pending tasks than before. *)
Theorem update_task_lower_priority_frees_slot (task_id : Z)
  (inp : CreateTask.t) (clk : Clock) (db : Table) (t : UserDB.t)
  (Hexists : get_task task_id clk db = (Return t, db))
  (Htarget : high_pending t = true)
  (Hprio : CreateTask.priority inp = Some "low"
           \/ CreateTask.priority inp = Some "medium")
  (Hreq : CreateTask.status inp = Some "in_progress")
  (Hdue : (today clk < CreateTask.due_date inp)%Z) :
  exists r,
    update_task task_id inp clk db = (Return r, stored_under task_id r db)
    /\ UserDB.status r = "in_progress"
    /\ high_pending_count (stored_under task_id r db) < high_pending_count db.
Proof.
  apply get_task_first in Hexists.
  destruct (find_id _ _ _ Hexists) as [Hid Hin].
  assert (Hst : UserDB.status t = "pending").
  { unfold high_pending, filter_, query_all, status_is in Htarget.
    apply andb_true_iff in Htarget. destruct Htarget as [_ H].
    apply String.eqb_eq in H. exact H. }
  assert (Hnew : forall p,
             high_pending (UserDB.mk task_id (CreateTask.title inp)
                             (CreateTask.description inp) p "in_progress"
                             (CreateTask.due_date inp)
                             (CreateTask.completed_at inp)) = false).
  { intros p. unfold high_pending, filter_, query_all, status_is. simpl.
    apply andb_false_r. }
  rewrite update_task_unfold, Hexists, transition_by_table, Hst, Hreq.
  destruct (Z.leb_spec (CreateTask.due_date inp) (today clk)); [lia|].
  destruct Hprio as [Hp|Hp]; rewrite Hp; simpl is_in; cbn [negb];
    simpl eq_str; cbn [andb]; simpl transition_table; cbv beta iota;
    unfold assign_commit, to_row; rewrite Hp, Hreq, Hid;
    (eexists; split; [reflexivity|]; split; [reflexivity|]);
    unfold high_pending_count;
    apply (count_stored_under_lt high_pending task_id _ t db
             (Hnew _) Hin Hid Htarget).
Qed.

Lemma update_task_lower_priority_frees_slot_witness :
  exists r,
    update_task 3 Scenario.start_low Sample.clk Sample.five
    = (Return r, stored_under 3 r Sample.five)
    /\ high_pending_count (stored_under 3 r Sample.five) < 5.
Proof.
  assert (Hd : (today Sample.clk < CreateTask.due_date Scenario.start_low)%Z)
    by (simpl; lia).
  destruct (update_task_lower_priority_frees_slot 3 Scenario.start_low
              Sample.clk Sample.five (Sample.high_pending_row 3)
              eq_refl eq_refl (or_introl eq_refl) eq_refl Hd)
    as [r [Hr [_ Hc]]].
  exists r. split; [exact Hr|exact Hc].
Defined.

(** ** What an accepted request stores *)

(** X19. The row an accepted createTask or updateTask returns holds
    the title, description, priority, status and due date of the body as
    they were sent, and its due date is after the day of the request. *)
Theorem accepted_request_stores_body (task_id : Z) (task : CreateTask.t)
  (clk : Clock) (db db' : Table) (r : UserDB.t) :
  create_task task clk db = (Return r, db')
  \/ update_task task_id task clk db = (Return r, db') ->
  UserDB.title r = CreateTask.title task
  /\ UserDB.description r = CreateTask.description task
  /\ Some (UserDB.priority r) = CreateTask.priority task
  /\ Some (UserDB.status r) = CreateTask.status task
  /\ UserDB.due_date r = CreateTask.due_date task
  /\ (today clk < UserDB.due_date r)%Z.
Proof.
  assert (Hrow : forall i u,
             to_row i u = Some r ->
             CreateTask.title u = CreateTask.title task ->
             CreateTask.description u = CreateTask.description task ->
             CreateTask.priority u = CreateTask.priority task ->
             CreateTask.status u = CreateTask.status task ->
             CreateTask.due_date u = CreateTask.due_date task ->
             UserDB.title r = CreateTask.title task
             /\ UserDB.description r = CreateTask.description task
             /\ Some (UserDB.priority r) = CreateTask.priority task
             /\ Some (UserDB.status r) = CreateTask.status task
             /\ UserDB.due_date r = CreateTask.due_date task).
  { intros i u Hr Ht Hde Hp Hs Hd. unfold to_row in Hr.
    rewrite Ht, Hde, Hp, Hs, Hd in Hr.
    destruct (CreateTask.priority task); [|discriminate].
    destruct (CreateTask.status task); [|discriminate].
    inversion Hr. simpl. repeat split; reflexivity. }
  intros [H|H].
  - rewrite create_task_unfold in H.
    destruct (Z.leb_spec (CreateTask.due_date task) (today clk));
      [discriminate|].
    destruct (negb (is_in (CreateTask.priority task) priorities));
      [discriminate|].
    destruct (eq_str (CreateTask.priority task) "high"
              && (5 <=? high_pending_count db)%nat); [discriminate|].
    destruct (negb (is_in (CreateTask.status task) statuses));
      [discriminate|].
    destruct (add_commit_cases task clk db) as [[r' [Hr Ha]]|Ha];
      rewrite Ha in H; [|discriminate].
    inversion H; subst r'.
    destruct (Hrow _ _ Hr eq_refl eq_refl eq_refl eq_refl eq_refl)
      as [G1 [G2 [G3 [G4 G5]]]].
    repeat split; try assumption. rewrite G5. assumption.
  - assert (Hd : (today clk < CreateTask.due_date task)%Z).
    { rewrite update_task_unfold in H.
      destruct (find (filter_ query_all (id_is task_id)) db);
        [|discriminate].
      destruct (Z.leb_spec (CreateTask.due_date task) (today clk));
        [discriminate|assumption]. }
    destruct (update_task_cases task_id task clk db)
      as [[e He]|[t [u [r' [_ [Hu [Hr He]]]]]]]; rewrite He in H;
      [discriminate|].
    inversion H; subst r'.
    assert (Hsame : CreateTask.title u = CreateTask.title task
                    /\ CreateTask.description u = CreateTask.description task
                    /\ CreateTask.priority u = CreateTask.priority task
                    /\ CreateTask.status u = CreateTask.status task
                    /\ CreateTask.due_date u = CreateTask.due_date task).
    { destruct Hu as [[_ Hu]|[_ Hu]]; subst u; repeat split; reflexivity. }
    destruct Hsame as [E1 [E2 [E3 [E4 E5]]]].
    destruct (Hrow _ _ Hr E1 E2 E3 E4 E5) as [G1 [G2 [G3 [G4 G5]]]].
    repeat split; try assumption. rewrite G5. assumption.
Qed.

Lemma accepted_request_stores_body_witness :
  UserDB.title (UserDB.mk 4 "n" None "low" "pending" 10 None)
  = CreateTask.title Scenario.new_low
  /\ (today Sample.clk
      < UserDB.due_date (UserDB.mk 4 "n" None "low" "pending" 10 None))%Z.
Proof.
  destruct (accepted_request_stores_body 1 Scenario.new_low Sample.clk
              Scenario.three
              (Scenario.three ++ [UserDB.mk 4 "n" None "low" "pending" 10 None])%list
              (UserDB.mk 4 "n" None "low" "pending" 10 None)
              (or_introl eq_refl)) as [Ht [_ [_ [_ [_ Hd]]]]].
  split; [exact Ht|exact Hd].
Defined.
